(** * api-client-interceptors: error classifier and re-authentication interceptor

    A shallow embedding of [errorHandler.ts] (the function [processStoreError])
    and of [authInterceptor.ts] (the interceptors built by
    [createAuthInterceptor] and [createAuthInterceptorLegacy], which share the
    module-level flag [isCheckingAuth]).

    - [Js]: the JavaScript values the two files inspect, with the operators
      they use ([typeof], [instanceof], [in], [||], member access, optional
      chaining, [trim], [includes]).  Operators that raise a [TypeError] in
      JavaScript return a [Completion].
    - [Axios]: the typed view of [AxiosError] that the interceptor receives.
    - [ErrorHandler]: [processStoreError].
    - [AuthInterceptor]: the async function [onRejected] cut at its two
      [await]s, the shared world it mutates, and the interleaving of several
      calls on one event loop. *)

From Stdlib Require Import Bool Ascii String List ZArith Lia.
Import ListNotations.
Local Open Scope string_scope.
Local Open Scope Z_scope.
Set Warnings "-register-all".

(* ================================================================== *)
(** ** JavaScript values and operators *)

Module Js.

(** The constructor that built an object, as far as [instanceof] can tell:
    [AxiosError] extends [Error], every object is an [Object]. *)
Inductive Class := ClsObject | ClsError | ClsAxiosError.

(** Values.  A number is an integer (the numbers read here are HTTP status
    codes); a string is a sequence of code units below 256; an object carries
    its class and its own properties in insertion order, the first binding of
    a key being the visible one.  Functions, symbols and bigints are opaque:
    the code only ever applies [typeof] to them. *)
Inductive Value :=
| Undefined
| Null
| Bool (b : bool)
| Num (n : Z)
| Str (s : string)
| Arr (items : list Value)
| Obj (cls : Class) (props : list (string * Value))
| Func
| Symbol
| BigInt (n : Z).

(** Result of evaluating an expression: a value, or a thrown [TypeError]. *)
Inductive Completion (A : Type) :=
| Normal (a : A)
| Throw (why : string).
Arguments Normal {A} a.
Arguments Throw {A} why.

Definition bind {A B} (c : Completion A) (k : A -> Completion B) : Completion B :=
  match c with
  | Normal a => k a
  | Throw why => Throw why
  end.

Notation "x <- c ;; k" := (bind c (fun x => k))
  (at level 61, c at next level, right associativity).

Inductive TypeTag :=
| TUndefined | TObject | TBoolean | TNumber | TString | TFunction | TSymbol | TBigInt.

(** [typeof v] *)
Definition typeof (v : Value) : TypeTag :=
  match v with
  | Undefined => TUndefined
  | Null => TObject
  | Bool _ => TBoolean
  | Num _ => TNumber
  | Str _ => TString
  | Arr _ => TObject
  | Obj _ _ => TObject
  | Func => TFunction
  | Symbol => TSymbol
  | BigInt _ => TBigInt
  end.

Definition is_string (v : Value) : bool :=
  match typeof v with TString => true | _ => false end.
Definition is_number (v : Value) : bool :=
  match typeof v with TNumber => true | _ => false end.
Definition is_object (v : Value) : bool :=
  match typeof v with TObject => true | _ => false end.

(** [c] is [d] or inherits from it. *)
Definition extends (c d : Class) : bool :=
  match d, c with
  | ClsObject, _ => true
  | ClsError, (ClsError | ClsAxiosError) => true
  | ClsAxiosError, ClsAxiosError => true
  | _, _ => false
  end.

(** [v instanceof d]: false for every primitive. *)
Definition instanceof (v : Value) (d : Class) : bool :=
  match v with
  | Obj c _ => extends c d
  | Arr _ => extends ClsObject d
  | _ => false
  end.

(** Truthiness: the falsy values are [undefined], [null], [false], [0],
    [0n] and the empty string. *)
Definition truthy (v : Value) : bool :=
  match v with
  | Undefined | Null => false
  | Bool b => b
  | Num n => negb (n =? 0)
  | BigInt n => negb (n =? 0)
  | Str s => negb (s =? "")%string
  | _ => true
  end.

(** [a || b] *)
Definition logical_or (a b : Value) : Value := if truthy a then a else b.

Fixpoint assoc (key : string) (props : list (string * Value)) : option Value :=
  match props with
  | [] => None
  | (k, v) :: rest => if (k =? key)%string then Some v else assoc key rest
  end.

(** Properties an object inherits.  Of the names the two files read
    ([message], [response], [status], [data], [statusCode], [payload],
    [error]) only [message] is inherited, from [Error.prototype]. *)
Definition inherited (c : Class) (key : string) : option Value :=
  if extends c ClsError && (key =? "message")%string then Some (Str "") else None.

(** [v.key] on a value that is neither [null] nor [undefined].  Primitives and
    arrays have none of the names above. *)
Definition lookup (v : Value) (key : string) : Value :=
  match v with
  | Obj c props =>
      match assoc key props with
      | Some x => x
      | None => match inherited c key with Some x => x | None => Undefined end
      end
  | Arr items => if (key =? "length")%string then Num (Z.of_nat (List.length items)) else Undefined
  | Str s => if (key =? "length")%string then Num (Z.of_nat (String.length s)) else Undefined
  | _ => Undefined
  end.

Definition nullish (v : Value) : bool :=
  match v with Undefined | Null => true | _ => false end.

(** [v.key]: a [TypeError] on [null] and [undefined]. *)
Definition member (v : Value) (key : string) : Completion Value :=
  if nullish v then Throw "Cannot read properties of null or undefined"
  else Normal (lookup v key).

(** [v?.key] *)
Definition opt_member (v : Value) (key : string) : Completion Value :=
  if nullish v then Normal Undefined else member v key.

(** [key in v]: a [TypeError] unless [v] is an object. *)
Definition has_property (key : string) (v : Value) : Completion bool :=
  match v with
  | Obj c props =>
      Normal (match assoc key props with
              | Some _ => true
              | None => match inherited c key with Some _ => true | None => false end
              end)
  | Arr _ => Normal (key =? "length")%string
  | _ => Throw "Cannot use 'in' operator to search for a key in a non-object"
  end.

(** White space and line terminators below 256: TAB, LF, VT, FF, CR, SP and
    NBSP. *)
Definition is_space (c : ascii) : bool :=
  let n := nat_of_ascii c in
  ((9 <=? n) && (n <=? 13) || (n =? 32) || (n =? 160))%nat.

Fixpoint trim_start (s : string) : string :=
  match s with
  | EmptyString => EmptyString
  | String c rest => if is_space c then trim_start rest else s
  end.

(** Drops the white space that ends [s]. *)
Fixpoint trim_end (s : string) : string :=
  match s with
  | EmptyString => EmptyString
  | String c rest =>
      match trim_end rest with
      | EmptyString => if is_space c then EmptyString else String c EmptyString
      | kept => String c kept
      end
  end.

(** [String.prototype.trim] *)
Definition trim (s : string) : string := trim_end (trim_start s).

(** Every code unit of [s] is white space (so also when [s] is empty). *)
Fixpoint blank (s : string) : bool :=
  match s with
  | EmptyString => true
  | String c rest => is_space c && blank rest
  end.

(** [v.trim()]: only strings have the method. *)
Definition call_trim (v : Value) : Completion string :=
  match v with
  | Str s => Normal (trim s)
  | _ => if nullish v then Throw "Cannot read properties of null or undefined"
         else Throw "trim is not a function"
  end.

(** [s.includes(pattern)] *)
Fixpoint includes (s pattern : string) : bool :=
  String.prefix pattern s ||
  match s with
  | EmptyString => false
  | String _ rest => includes rest pattern
  end.

(** [v === n] for a number literal [n] *)
Definition strict_eq_num (v : Value) (n : Z) : bool :=
  match v with Num m => m =? n | _ => false end.

End Js.

(* ================================================================== *)
(** ** The typed view of an axios failure *)

Module Axios.

(** [AxiosResponse]: the status code and the response body. *)
Record AxiosResponse := {
  status : Z;
  data : Js.Value
}.

(** [InternalAxiosRequestConfig]: only [url] is read. *)
Record AxiosRequestConfig := {
  url : option string
}.

(** [AxiosError]: [config] and [response] are optional. *)
Record AxiosError := {
  message : string;
  config : option AxiosRequestConfig;
  response : option AxiosResponse
}.

Definition response_to_js (r : AxiosResponse) : Js.Value :=
  Js.Obj Js.ClsObject [("status", Js.Num (status r)); ("data", data r)].

Definition config_to_js (c : AxiosRequestConfig) : Js.Value :=
  Js.Obj Js.ClsObject
    match url c with Some u => [("url", Js.Str u)] | None => [] end.

(** The object an [AxiosError] is at run time: the constructor always sets
    [message], and sets [config] and [response] when they are given. *)
Definition to_js (e : AxiosError) : Js.Value :=
  Js.Obj Js.ClsAxiosError
    ([("message", Js.Str (message e))]
     ++ match config e with Some c => [("config", config_to_js c)] | None => [] end
     ++ match response e with Some r => [("response", response_to_js r)] | None => [] end).

End Axios.

(* ================================================================== *)
(** ** errorHandler.ts *)

Module ErrorHandler.
Import Js.

(** [ProcessedError].  The fields are dynamic values: [message] can be
    whatever the response body carries under [message], and an absent [data]
    is [undefined]. *)
Record ProcessedError := {
  statusCode : Value;
  message : Value;
  data : Value;
  isAxiosError : bool;
  originalError : Value
}.

Definition default_message : string :=
  "An unexpected error occurred. Please try again.".

Definition communication_message : string :=
  "A server communication error occurred.".

(** [typeof error === 'string' && error.trim() !== ''] *)
Definition nonblank_string (v : Value) : Completion bool :=
  if is_string v then
    t <- call_trim v ;;
    Normal (negb (t =? "")%string)
  else Normal false.

(** ['message' in error && typeof error.message === 'string' &&
     error.message.trim() !== ''] *)
Definition has_nonblank_message (error : Value) : Completion bool :=
  present <- has_property "message" error ;;
  if present then
    m <- member error "message" ;;
    nonblank_string m
  else Normal false.

(** ['statusCode' in error && typeof error.statusCode === 'number'] *)
Definition has_numeric_statusCode (error : Value) : Completion bool :=
  present <- has_property "statusCode" error ;;
  if present then
    c <- member error "statusCode" ;;
    Normal (is_number c)
  else Normal false.

Definition processStoreError (error : Value) : Completion ProcessedError :=
  let statusCode := Num 0 in
  let message := Str default_message in
  let errorData := Undefined in
  let isAxiosError := false in
  if instanceof error ClsAxiosError then
    let isAxiosError := true in
    (* error.response?.status || 0 *)
    resp <- member error "response" ;;
    st <- opt_member resp "status" ;;
    let statusCode := logical_or st (Num 0) in
    (* error.response?.data?.message || error.message || '...' *)
    body <- opt_member resp "data" ;;
    body_message <- opt_member body "message" ;;
    own_message <- member error "message" ;;
    let message :=
      logical_or body_message (logical_or own_message (Str communication_message)) in
    (* error.response?.data *)
    let errorData := body in
    Normal {| statusCode := statusCode; message := message; data := errorData;
              isAxiosError := isAxiosError; originalError := error |}
  else if instanceof error ClsError then
    m <- member error "message" ;;
    let message := m in
    Normal {| statusCode := statusCode; message := message; data := errorData;
              isAxiosError := isAxiosError; originalError := error |}
  else
    plain <- nonblank_string error ;;
    if plain then
      let message := error in
      Normal {| statusCode := statusCode; message := message; data := errorData;
                isAxiosError := isAxiosError; originalError := error |}
    else if truthy error && is_object error then
      with_message <- has_nonblank_message error ;;
      m <- (if with_message then member error "message" else Normal message) ;;
      let message := m in
      with_status <- has_numeric_statusCode error ;;
      c <- (if with_status then member error "statusCode" else Normal statusCode) ;;
      let statusCode := c in
      with_data <- has_property "data" error ;;
      d <- (if with_data then member error "data" else Normal errorData) ;;
      let errorData := d in
      Normal {| statusCode := statusCode; message := message; data := errorData;
                isAxiosError := isAxiosError; originalError := error |}
    else
      Normal {| statusCode := statusCode; message := message; data := errorData;
                isAxiosError := isAxiosError; originalError := error |}.

(** The failure of the validation scenario: status 422 with a Laravel body. *)
Definition validation_body : Value :=
  Obj ClsObject
    [("message", Str "Validation failed");
     ("errors", Obj ClsObject [("email", Arr [Str "required"])])].

Definition validation_failure : Axios.AxiosError :=
  {| Axios.message := "Request failed with status code 422";
     Axios.config := None;
     Axios.response := Some {| Axios.status := 422; Axios.data := validation_body |} |}.

End ErrorHandler.

(* ================================================================== *)
(** ** authInterceptor.ts *)

Module AuthInterceptor.
Import Axios.

(** What the code asks of [checkAuthAction]: the two optional matchers
    [checkAuthAction.fulfilled?.match] and [checkAuthAction.rejected?.match].
    A matcher is absent when the action creator has no such member; one that
    is there is a predicate on actions. *)
Record ActionCreator := {
  fulfilled : option (Js.Value -> bool);
  rejected : option (Js.Value -> bool)
}.

(** [AuthInterceptorConfig].  [store] and [logoutAction] are opaque to the
    interceptor and stand for themselves. *)
Record AuthInterceptorConfig := {
  store : string;
  checkAuthAction : ActionCreator;
  logoutAction : string;
  authCheckPattern : option string;
  loginPath : option string
}.

(** What a call can do to the outside, in the order it does it. *)
Inductive Event :=
| DispatchCheckAuth (config : AuthInterceptorConfig)  (* store.dispatch(checkAuthAction()) *)
| DispatchLogout (config : AuthInterceptorConfig)     (* store.dispatch(logoutAction()) *)
| Navigate (href : string)                            (* window.location.href = ... *)
| ConsoleError (err : Js.Value)
| ConsoleWarn.

(** The state every call shares: the module-level [isCheckingAuth], the
    browser location ([None] when [typeof window] is ['undefined']) and the
    effects so far.  Assigning [window.location.href] starts a navigation
    that completes after the running script; [pathname] is left as it is. *)
Record World := {
  isCheckingAuth : bool;
  pathname : option string;
  effects : list Event
}.

Definition set_isCheckingAuth (b : bool) (w : World) : World :=
  {| isCheckingAuth := b; pathname := pathname w; effects := effects w |}.

Definition emit (e : Event) (w : World) : World :=
  {| isCheckingAuth := isCheckingAuth w; pathname := pathname w;
     effects := effects w ++ [e] |}.

(** How the promise of an async call settles. *)
Inductive Reason :=
| Original (error : AxiosError)       (* the error the call was given *)
| Other (err : Js.Value).             (* anything else *)

Inductive Settlement :=
| Resolves (v : Js.Value)
| Rejects (why : Reason).

(** How an awaited [store.dispatch(...)] comes back: [dispatch] is declared
    to return a promise, which fulfils with a value or rejects.  A [dispatch]
    that throws before it returns lands in the same [catch] block; it is the
    run in which [Throws] follows the call with nothing in between. *)
Inductive Outcome :=
| Returns (v : Js.Value)
| Throws (err : Js.Value).

(** A call of [onRejected]: suspended at one of its two [await]s, or over. *)
Inductive Task :=
| AwaitCheckAuth (config : AuthInterceptorConfig) (error : AxiosError)
| AwaitLogout (config : AuthInterceptorConfig) (error : AxiosError)
| Settled (s : Settlement).

(** [error.response?.status !== 401] *)
Definition status_is_not_401 (error : AxiosError) : bool :=
  match response error with
  | Some r => negb (status r =? 401)
  | None => true
  end.

(** [error.config?.url?.includes(pattern)], as a condition *)
Definition url_includes (error : AxiosError) (pattern : string) : bool :=
  match config error with
  | Some c => match url c with
              | Some u => Js.includes u pattern
              | None => false
              end
  | None => false
  end.

(** [matcher?.match(action)], as a condition *)
Definition matches (matcher : option (Js.Value -> bool)) (action : Js.Value) : bool :=
  match matcher with
  | Some m => m action
  | None => false
  end.

(** [rejectedPayload?.error?.statusCode === 401] *)
Definition payload_is_401 (rejectedPayload : Js.Value) : Js.Completion bool :=
  Js.bind (Js.opt_member rejectedPayload "error") (fun e =>
  Js.bind (Js.opt_member e "statusCode") (fun c =>
  Js.Normal (Js.strict_eq_num c 401))).

(** The [finally] block. *)
Definition finally (w : World) : World := set_isCheckingAuth false w.

(** The [catch] block. *)
Definition catch (err : Js.Value) (w : World) : World := emit (ConsoleError err) w.

Definition type_error (why : string) : Js.Value :=
  Js.Obj Js.ClsError [("message", Js.Str why)].

Definition authCheckPattern_or_default (config : AuthInterceptorConfig) : string :=
  match authCheckPattern config with Some p => p | None => "/me/check" end.

Definition loginPath_or_default (config : AuthInterceptorConfig) : string :=
  match loginPath config with Some p => p | None => "/login" end.

(** [onRejected] from its entry to the first [await] (or to its end). *)
Definition onRejected_enter (config : AuthInterceptorConfig)
    (error : AxiosError) (w : World) : World * Task :=
  if status_is_not_401 error then (w, Settled (Rejects (Original error)))
  else if url_includes error (authCheckPattern_or_default config)
  then (w, Settled (Rejects (Original error)))
  else if isCheckingAuth w then (w, Settled (Rejects (Original error)))
  else
    let w := set_isCheckingAuth true w in
    (emit (DispatchCheckAuth config) w, AwaitCheckAuth config error).

(** From the settling of [await store.dispatch(checkAuthAction())] to the
    second [await] (or to the end). *)
Definition onRejected_checked (config : AuthInterceptorConfig)
    (error : AxiosError) (o : Outcome) (w : World) : World * Task :=
  match o with
  | Throws err =>
      (finally (catch err w), Settled (Rejects (Original error)))
  | Returns resultAction =>
      if matches (fulfilled (checkAuthAction config)) resultAction then
        let w := set_isCheckingAuth false w in
        (finally w, Settled (Rejects (Original error)))
      else
        let confirmed :=
          if matches (rejected (checkAuthAction config)) resultAction then
            Js.bind (Js.member resultAction "payload") payload_is_401
          else Js.Normal false in
        match confirmed with
        | Js.Normal true =>
            (emit (DispatchLogout config) w, AwaitLogout config error)
        | Js.Normal false =>
            (finally w, Settled (Rejects (Original error)))
        | Js.Throw why =>
            (finally (catch (type_error why) w), Settled (Rejects (Original error)))
        end
  end.

(** From the settling of [await store.dispatch(logoutAction())] to the end. *)
Definition onRejected_loggedOut (config : AuthInterceptorConfig)
    (error : AxiosError) (o : Outcome) (w : World) : World * Task :=
  match o with
  | Throws err =>
      (finally (catch err w), Settled (Rejects (Original error)))
  | Returns _ =>
      let w :=
        match pathname w with
        | Some here =>
            if negb (here =? loginPath_or_default config)%string
            then emit (Navigate (loginPath_or_default config)) w
            else w
        | None => w
        end in
      (finally w, Settled (Rejects (Original error)))
  end.

(** [onRejected] of the legacy interceptor: it has no [await]. *)
Definition onRejected_legacy (error : AxiosError) (w : World) : World * Task :=
  if status_is_not_401 error then (w, Settled (Rejects (Original error)))
  else if url_includes error "/me/check"
  then (w, Settled (Rejects (Original error)))
  else if isCheckingAuth w then (w, Settled (Rejects (Original error)))
  else
    let w := set_isCheckingAuth true w in
    let w := emit ConsoleWarn w in
    (finally w, Settled (Rejects (Original error))).

(** The object both factories return. *)
Record Interceptor := {
  onFulfilled : AxiosResponse -> AxiosResponse;
  onRejected : AxiosError -> World -> World * Task
}.

Definition createAuthInterceptor (config : AuthInterceptorConfig) : Interceptor :=
  {| onFulfilled := fun response => response;
     onRejected := onRejected_enter config |}.

Definition createAuthInterceptorLegacy : Interceptor :=
  {| onFulfilled := fun response => response;
     onRejected := onRejected_legacy |}.

(** A suspended call goes on when the promise it awaits settles. *)
Definition resume (t : Task) (o : Outcome) (w : World) : World * Task :=
  match t with
  | AwaitCheckAuth config error => onRejected_checked config error o w
  | AwaitLogout config error => onRejected_loggedOut config error o w
  | Settled _ => (w, t)
  end.

(** One call followed to its end: [checked] is how the verification settles,
    [loggedOut] how the logout settles if the call gets that far.  While the
    call is suspended other calls run; [others1] and [others2] are what they
    do to the world in the meantime. *)
Definition run_among (i : Interceptor) (error : AxiosError)
    (checked loggedOut : Outcome) (others1 others2 : World -> World)
    (w : World) : World * Task :=
  let (w1, t1) := onRejected i error w in
  let (w2, t2) := resume t1 checked (others1 w1) in
  resume t2 loggedOut (others2 w2).

(** The same with nothing else going on. *)
Definition run (i : Interceptor) (error : AxiosError)
    (checked loggedOut : Outcome) (w : World) : World * Task :=
  run_among i error checked loggedOut (fun w => w) (fun w => w) w.

(** *** Several calls on one event loop *)

Definition suspended (t : Task) : bool :=
  match t with
  | Settled _ => false
  | _ => true
  end.

Definition verifying (t : Task) : bool :=
  match t with
  | AwaitCheckAuth _ _ => true
  | _ => false
  end.

(** The interceptors there are: one per configuration, and the legacy one. *)
Inductive Instance :=
| Configured (config : AuthInterceptorConfig)
| Legacy.

Definition interceptor (i : Instance) : Interceptor :=
  match i with
  | Configured config => createAuthInterceptor config
  | Legacy => createAuthInterceptorLegacy
  end.

Record System := {
  world : World;
  tasks : list Task
}.

Definition initial (here : option string) : System :=
  {| world := {| isCheckingAuth := false; pathname := here; effects := [] |};
     tasks := [] |}.

(** Either a failed exchange reaches some interceptor, whose [onRejected]
    runs up to its first [await]; or a promise some call awaits settles and
    that call runs up to its next [await]. *)
Inductive step : System -> System -> Prop :=
| step_call (i : Instance) (error : AxiosError) (s : System) w t :
    onRejected (interceptor i) error (world s) = (w, t) ->
    step s {| world := w; tasks := tasks s ++ [t] |}
| step_settle (o : Outcome) (w : World) (before after : list Task) t w' t' :
    suspended t = true ->
    resume t o w = (w', t') ->
    step {| world := w; tasks := before ++ t :: after |}
         {| world := w'; tasks := before ++ t' :: after |}.

Inductive reachable : System -> Prop :=
| reachable_initial here : reachable (initial here)
| reachable_step s s' : reachable s -> step s s' -> reachable s'.

Definition count (p : Task -> bool) (ts : list Task) : nat :=
  List.length (List.filter p ts).

Definition is_check (e : Event) : bool :=
  match e with DispatchCheckAuth _ => true | _ => false end.
Definition is_logout (e : Event) : bool :=
  match e with DispatchLogout _ => true | _ => false end.
Definition is_navigate (e : Event) : bool :=
  match e with Navigate _ => true | _ => false end.

Definition occurrences (p : Event -> bool) (w : World) : nat :=
  List.length (List.filter p (effects w)).

(** A burst: failures reaching interceptors one after the other while no
    awaited promise settles. *)
Fixpoint burst (calls : list (Instance * AxiosError)) (w : World) : World * list Task :=
  match calls with
  | [] => (w, [])
  | (i, error) :: rest =>
      let (w1, t) := onRejected (interceptor i) error w in
      let (w2, ts) := burst rest w1 in
      (w2, t :: ts)
  end.

(** The latch: a call is suspended exactly while the guard is taken, and
    then it is the only one. *)
Definition latched (s : System) : Prop :=
  count suspended (tasks s) = if isCheckingAuth (world s) then 1%nat else 0%nat.

(** The failure is one [onRejected] acts on: status 401, and a URL (if any)
    that does not contain the verification pattern. *)
Definition qualifies (config : AuthInterceptorConfig) (error : AxiosError) : Prop :=
  (exists r, response error = Some r /\ status r = 401) /\
  (forall c u, Axios.config error = Some c -> url c = Some u ->
               Js.includes u (authCheckPattern_or_default config) = false).

(** [resultAction.payload.error.statusCode], when every step of the path
    exists. *)
Definition reasonStatus (resultAction : Js.Value) : option Js.Value :=
  if Js.nullish resultAction then None
  else let payload := Js.lookup resultAction "payload" in
       if Js.nullish payload then None
       else let e := Js.lookup payload "error" in
            if Js.nullish e then None
            else Some (Js.lookup e "statusCode").

(** *** Sample data *)

Definition has_type (t : string) (action : Js.Value) : bool :=
  match action with
  | Js.Obj _ props =>
      match Js.assoc "type" props with
      | Some (Js.Str u) => (u =? t)%string
      | _ => false
      end
  | _ => false
  end.

(** An action creator made by Redux Toolkit's [createAsyncThunk]: its
    matchers compare the action's [type]. *)
Definition asyncThunk (typePrefix : string) : ActionCreator :=
  {| fulfilled := Some (has_type (typePrefix ++ "/fulfilled"));
     rejected := Some (has_type (typePrefix ++ "/rejected")) |}.

Definition sample_config : AuthInterceptorConfig :=
  {| store := "store"; checkAuthAction := asyncThunk "auth/check";
     logoutAction := "auth/logout"; authCheckPattern := None; loginPath := None |}.

Definition other_config : AuthInterceptorConfig :=
  {| store := "admin-store"; checkAuthAction := asyncThunk "admin/check";
     logoutAction := "admin/logout"; authCheckPattern := Some "/admin/me";
     loginPath := Some "/admin/login" |}.

Definition failure (code : Z) (target : string) : AxiosError :=
  {| message := "Request failed";
     config := Some {| url := Some target |};
     response := Some {| status := code; data := Js.Undefined |} |}.

Definition fulfilled_action (typePrefix : string) : Js.Value :=
  Js.Obj Js.ClsObject
    [("type", Js.Str (typePrefix ++ "/fulfilled")); ("payload", Js.Obj Js.ClsObject [])].

Definition rejected_action (typePrefix : string) (code : Z) : Js.Value :=
  Js.Obj Js.ClsObject
    [("type", Js.Str (typePrefix ++ "/rejected"));
     ("payload",
      Js.Obj Js.ClsObject [("error", Js.Obj Js.ClsObject [("statusCode", Js.Num code)])])].

(** One verification in flight, started from the dashboard. *)
Definition verifying_system : System :=
  {| world := {| isCheckingAuth := true; pathname := Some "/dashboard";
                 effects := [DispatchCheckAuth sample_config] |};
     tasks := [AwaitCheckAuth sample_config (failure 401 "/api/users")] |}.

Definition idle (here : option string) : World :=
  {| isCheckingAuth := false; pathname := here; effects := [] |}.

End AuthInterceptor.

(* ================================================================== *)
(** ** errorHandler.ts: the helpers on a [ProcessedError] *)

Module ErrorHelpers.
Import Js ErrorHandler.

(** [v >= n] for a number [v].  [ProcessedError] declares [statusCode] a
    number; on other values JavaScript first coerces, which is not modelled:
    what is stated about [isServerError] is stated for numbers. *)
Definition ge_num (v : Value) (n : Z) : bool :=
  match v with Num m => n <=? m | _ => false end.

(** [processedError.statusCode === 422 && processedError.data?.errors], as a
    condition *)
Definition has_validation_errors (processedError : ProcessedError) : Completion bool :=
  if strict_eq_num (statusCode processedError) 422 then
    errors <- opt_member (data processedError) "errors" ;;
    Normal (truthy errors)
  else Normal false.

Definition extractValidationErrors (processedError : ProcessedError) : Completion Value :=
  found <- has_validation_errors processedError ;;
  if found then member (data processedError) "errors"
  else Normal Null.

Definition isNetworkError (processedError : ProcessedError) : bool :=
  isAxiosError processedError && strict_eq_num (statusCode processedError) 0.

Definition isAuthError (processedError : ProcessedError) : bool :=
  strict_eq_num (statusCode processedError) 401.

Definition isAuthorizationError (processedError : ProcessedError) : bool :=
  strict_eq_num (statusCode processedError) 403.

Definition isValidationError (processedError : ProcessedError) : bool :=
  strict_eq_num (statusCode processedError) 422.

Definition isServerError (processedError : ProcessedError) : bool :=
  ge_num (statusCode processedError) 500.

Definition network_sentence : string :=
  "Unable to connect to the server. Please check your internet connection.".
Definition session_sentence : string :=
  "Your session has expired. Please log in again.".
Definition permission_sentence : string :=
  "You do not have permission to perform this action.".
Definition validation_sentence : string :=
  "Please check the form for errors and try again.".
Definition server_sentence : string :=
  "A server error occurred. Please try again later.".

Definition getUserFriendlyMessage (processedError : ProcessedError) : Value :=
  if isNetworkError processedError then Str network_sentence
  else if isAuthError processedError then Str session_sentence
  else if isAuthorizationError processedError then Str permission_sentence
  else if isValidationError processedError then Str validation_sentence
  else if isServerError processedError then Str server_sentence
  else message processedError.

(** The record of an error nothing could be read from. *)
Definition generic (error : Value) : ProcessedError :=
  {| statusCode := Num 0; message := Str default_message; data := Undefined;
     isAxiosError := false; originalError := error |}.

(** The status a transport failure is classified under: the response's, or 0
    when there is no response. *)
Definition status_of (e : Axios.AxiosError) : Z :=
  match Axios.response e with Some r => Axios.status r | None => 0 end.

(** The body of a transport failure: [error.response?.data]. *)
Definition body_of (e : Axios.AxiosError) : Value :=
  match Axios.response e with Some r => Axios.data r | None => Undefined end.

(** [body?.key] as a value. *)
Definition field (body : Value) (key : string) : Value :=
  if nullish body then Undefined else lookup body key.

(** A failure with status [code] and response body [body]. *)
Definition http_failure (code : Z) (body : Value) : Axios.AxiosError :=
  {| Axios.message := "Request failed"; Axios.config := None;
     Axios.response := Some {| Axios.status := code; Axios.data := body |} |}.

End ErrorHelpers.

(* ================================================================== *)
(** ** authInterceptor.ts: counting what the calls have done *)

Module Accounting.
Import AuthInterceptor.

Definition awaiting_logout (t : Task) : bool :=
  match t with
  | AwaitLogout _ _ => true
  | _ => false
  end.

(** Every logout answers a verification that has settled, and every
    navigation a logout that has settled. *)
Definition balanced (s : System) : Prop :=
  (occurrences is_logout (world s) + count verifying (tasks s) <=
   occurrences is_check (world s))%nat /\
  (occurrences is_navigate (world s) + count awaiting_logout (tasks s) <=
   occurrences is_logout (world s))%nat.

(** What a burst leaves of its calls when the guard is taken. *)
Definition turned_away (calls : list (Instance * Axios.AxiosError)) : list Task :=
  List.map (fun call => Settled (Rejects (Original (snd call)))) calls.

End Accounting.

(* ================================================================== *)
(** * Properties of the error classifier *)

Section Classifier.
Import Js ErrorHandler.

Lemma trim_end_blank (s : string) :
  blank s = true -> trim_end s = EmptyString.
Proof.
  induction s as [|c rest IH]; simpl; [reflexivity|].
  intros H. apply andb_true_iff in H as [Hc Hrest].
  rewrite (IH Hrest), Hc. reflexivity.
Qed.

Lemma trim_end_not_blank (s : string) :
  blank s = false -> trim_end s <> EmptyString.
Proof.
  induction s as [|c rest IH]; simpl; [discriminate|].
  intros H. apply andb_false_iff in H as [Hc|Hrest].
  - rewrite Hc. destruct (trim_end rest); discriminate.
  - specialize (IH Hrest). destruct (trim_end rest); [congruence|discriminate].
Qed.

Lemma blank_trim_start (s : string) : blank (trim_start s) = blank s.
Proof.
  induction s as [|c rest IH]; simpl; [reflexivity|].
  destruct (is_space c) eqn:Hc; simpl.
  - exact IH.
  - rewrite Hc. reflexivity.
Qed.

(** [s.trim() !== ''] holds exactly when [s] has a code unit that is not
    white space. *)
Lemma trim_nonempty (s : string) :
  negb (trim s =? "")%string = negb (blank s).
Proof.
  unfold trim. f_equal.
  destruct (blank s) eqn:Hb.
  - rewrite trim_end_blank by (now rewrite blank_trim_start). reflexivity.
  - apply String.eqb_neq, trim_end_not_blank. now rewrite blank_trim_start.
Qed.

Lemma logical_or_status (n : Z) : logical_or (Num n) (Num 0) = Num n.
Proof.
  unfold logical_or; simpl. destruct (n =? 0) eqn:E; simpl; [|reflexivity].
  apply Z.eqb_eq in E. now subst.
Qed.

Lemma opt_member_total (v : Value) (key : string) :
  opt_member v key = Normal (if nullish v then Undefined else lookup v key).
Proof. unfold opt_member, member. destruct (nullish v); reflexivity. Qed.

Lemma nonblank_string_normal (v : Value) :
  nonblank_string v =
  Normal match v with Str s => negb (blank s) | _ => false end.
Proof.
  destruct v; try reflexivity.
  unfold nonblank_string; simpl. now rewrite trim_nonempty.
Qed.

Lemma member_normal (v : Value) (key : string) :
  nullish v = false -> member v key = Normal (lookup v key).
Proof. unfold member. now intros ->. Qed.

Lemma has_property_normal (key : string) (v : Value) :
  truthy v && is_object v = true ->
  nullish v = false /\ exists b, has_property key v = Normal b.
Proof.
  destruct v; simpl; rewrite ?andb_false_r; try discriminate;
    intros _; split; try reflexivity; eexists; reflexivity.
Qed.

(** C7.  [processStoreError] returns a record, and raises nothing, on every
    value; on [null], [undefined], the empty string and the empty object the
    record has status 0, the generic message and no data. *)
Theorem processStoreError_total :
  (forall error : Value, exists pe, processStoreError error = Normal pe) /\
  (forall error : Value,
     In error [Null; Undefined; Str ""; Obj ClsObject []] ->
     processStoreError error =
     Normal {| statusCode := Num 0; message := Str default_message;
               data := Undefined; isAxiosError := false;
               originalError := error |}).
Proof.
  split.
  - intros error. unfold processStoreError.
    destruct (instanceof error ClsAxiosError) eqn:Haxios.
    { destruct error; try discriminate.
      rewrite member_normal by reflexivity. cbn [bind].
      repeat (rewrite opt_member_total; cbn [bind]).
      rewrite member_normal by reflexivity. cbn [bind].
      eexists; reflexivity. }
    destruct (instanceof error ClsError) eqn:Herr.
    { destruct error; try discriminate.
      rewrite member_normal by reflexivity. eexists; reflexivity. }
    rewrite nonblank_string_normal. cbn [bind].
    match goal with |- context [if ?b then _ else _] => destruct b end;
      [eexists; reflexivity|].
    destruct (truthy error && is_object error) eqn:Hobj; [|eexists; reflexivity].
    unfold has_nonblank_message, has_numeric_statusCode.
    destruct (has_property_normal "message" error Hobj) as [Hnn [b1 ->]].
    destruct (has_property_normal "statusCode" error Hobj) as [_ [b2 ->]].
    destruct (has_property_normal "data" error Hobj) as [_ [b3 ->]].
    cbn [bind]. rewrite ?member_normal by exact Hnn.
    destruct b1, b2, b3; cbn [bind];
      rewrite ?member_normal by exact Hnn; cbn [bind];
      rewrite ?nonblank_string_normal; cbn [bind];
      repeat match goal with
             | |- context [if ?b then _ else _] => destruct b; cbn [bind]
             end; eexists; reflexivity.
  - intros error H. simpl in H.
    destruct H as [<-|[<-|[<-|[<-|[]]]]]; reflexivity.
Qed.

Example processStoreError_total_witness :
  In Null [Null; Undefined; Str ""; Obj ClsObject []] /\
  processStoreError Null =
  Normal {| statusCode := Num 0; message := Str default_message;
            data := Undefined; isAxiosError := false; originalError := Null |}.
Proof.
  split; [simpl; auto|].
  apply (proj2 processStoreError_total Null). simpl; auto.
Defined.

(** C8.  On an [AxiosError] that carries a response, the status is the
    response's status, the data is the response body, and the message is the
    body's [message] when that is a non-empty string, else the error's own
    message, else the communication fallback; the 422 validation failure
    yields status 422, "Validation failed" and its body. *)
Theorem processStoreError_axios_response :
  (forall (m : string) (cfg : option Axios.AxiosRequestConfig)
          (r : Axios.AxiosResponse),
     exists pe,
       processStoreError
         (Axios.to_js {| Axios.message := m; Axios.config := cfg;
                         Axios.response := Some r |}) = Normal pe /\
       statusCode pe = Num (Axios.status r) /\
       data pe = Axios.data r /\
       isAxiosError pe = true /\
       (forall bm : string,
          opt_member (Axios.data r) "message" = Normal (Str bm) ->
          bm <> "" -> message pe = Str bm) /\
       (opt_member (Axios.data r) "message" = Normal Undefined \/
        opt_member (Axios.data r) "message" = Normal (Str "") ->
        message pe = Str (if (m =? "")%string then communication_message else m)) /\
       (forall v : Value,
          opt_member (Axios.data r) "message" = Normal v ->
          message pe =
          if truthy v then v
          else Str (if (m =? "")%string then communication_message else m))) /\
  processStoreError (Axios.to_js validation_failure) =
  Normal {| statusCode := Num 422; message := Str "Validation failed";
            data := validation_body; isAxiosError := true;
            originalError := Axios.to_js validation_failure |}.
Proof.
  split; [|reflexivity].
  intros m cfg r.
  assert (Hrun :
    processStoreError
      (Axios.to_js {| Axios.message := m; Axios.config := cfg;
                      Axios.response := Some r |}) =
    Normal {| statusCode := Num (Axios.status r);
              message :=
                (let v := if nullish (Axios.data r) then Undefined
                          else lookup (Axios.data r) "message" in
                 if truthy v then v
                 else Str (if (m =? "")%string then communication_message else m));
              data := Axios.data r; isAxiosError := true;
              originalError :=
                Axios.to_js {| Axios.message := m; Axios.config := cfg;
                               Axios.response := Some r |} |}).
  { unfold processStoreError, Axios.to_js, Axios.response_to_js.
    cbn [instanceof extends Axios.message Axios.config Axios.response].
    rewrite !member_normal by reflexivity.
    destruct cfg as [c|]; cbn [bind app lookup assoc String.eqb Ascii.eqb Bool.eqb];
      repeat (rewrite opt_member_total;
              cbn [bind nullish lookup assoc String.eqb Ascii.eqb Bool.eqb]);
      rewrite logical_or_status; unfold logical_or; cbn [truthy];
      destruct (m =? "")%string; reflexivity. }
  eexists. split; [exact Hrun|]. cbn [statusCode data isAxiosError message].
  repeat split; rewrite ?opt_member_total.
  - intros bm H Hne. injection H as H. rewrite H. cbn [truthy].
    apply String.eqb_neq in Hne. now rewrite Hne.
  - intros [H|H]; injection H as H; rewrite H; reflexivity.
  - intros v H. injection H as H. now rewrite H.
Qed.

(** C9, as the code has it.  On a plain string the status is 0 and there is
    no data; the message is the string itself when it has a code unit that
    is not white space, and the generic message when it is empty or all
    white space. *)
Theorem processStoreError_string (s : string) :
  processStoreError (Str s) =
  Normal {| statusCode := Num 0;
            message := Str (if blank s then default_message else s);
            data := Undefined; isAxiosError := false;
            originalError := Str s |}.
Proof.
  unfold processStoreError. cbn [instanceof].
  rewrite nonblank_string_normal. cbn [bind].
  destruct (blank s); cbn [negb]; [|reflexivity].
  cbn [is_object typeof]. now rewrite andb_false_r.
Qed.

(** C9 fails on a string of one space: it is not empty, and the message is
    the generic one, not the string. *)
Example processStoreError_blank_string :
  " " <> "" /\
  processStoreError (Str " ") =
  Normal {| statusCode := Num 0; message := Str default_message;
            data := Undefined; isAxiosError := false;
            originalError := Str " " |} /\
  Str default_message <> Str " ".
Proof. repeat split; discriminate. Qed.

(** The classifier on an [Error], on a transport failure without response
    and on a custom error object. *)
Example processStoreError_plain_error :
  processStoreError (Obj ClsError [("message", Str "Something went wrong")]) =
  Normal {| statusCode := Num 0; message := Str "Something went wrong";
            data := Undefined; isAxiosError := false;
            originalError := Obj ClsError [("message", Str "Something went wrong")] |}.
Proof. reflexivity. Qed.

Example processStoreError_network_error :
  let e := {| Axios.message := "Network Error"; Axios.config := None;
              Axios.response := None |} in
  processStoreError (Axios.to_js e) =
  Normal {| statusCode := Num 0; message := Str "Network Error";
            data := Undefined; isAxiosError := true;
            originalError := Axios.to_js e |}.
Proof. reflexivity. Qed.

Example processStoreError_custom_object :
  let e := Obj ClsObject [("message", Str "Not found"); ("statusCode", Num 404);
                          ("data", Obj ClsObject [("id", Num 7)])] in
  processStoreError e =
  Normal {| statusCode := Num 404; message := Str "Not found";
            data := Obj ClsObject [("id", Num 7)]; isAxiosError := false;
            originalError := e |}.
Proof. reflexivity. Qed.

Example processStoreError_axios_response_witness :
  opt_member validation_body "message" = Normal (Str "Validation failed") /\
  "Validation failed" <> "" /\
  exists pe,
    processStoreError (Axios.to_js validation_failure) = Normal pe /\
    message pe = Str "Validation failed".
Proof.
  split; [reflexivity|]. split; [discriminate|].
  destruct (proj1 processStoreError_axios_response
              "Request failed with status code 422" None
              {| Axios.status := 422; Axios.data := validation_body |})
    as [pe [Hrun [_ [_ [_ [Hmsg _]]]]]].
  exists pe. split; [exact Hrun|].
  apply Hmsg; [reflexivity|discriminate].
Defined.

End Classifier.

(* ================================================================== *)
(** * Properties of the re-authentication interceptor *)

Section Coordinator.
Import Axios AuthInterceptor.

Lemma prefix_app (p s : string) :
  String.prefix p s = true <-> exists post, s = (p ++ post)%string.
Proof.
  revert s. induction p as [|c p IH]; intros s.
  - split; [intros _; now exists s|now destruct s].
  - destruct s as [|d s]; simpl.
    + split; [discriminate|intros [post H]; discriminate].
    + destruct (Ascii.ascii_dec c d) as [->|Hcd].
      * rewrite IH. split; intros [post H]; exists post; congruence.
      * split; [discriminate|intros [post H]; congruence].
Qed.

(** [s.includes(p)] holds exactly when [p] occurs in [s]. *)
Lemma includes_spec (s p : string) :
  Js.includes s p = true <-> exists pre post, s = (pre ++ p ++ post)%string.
Proof.
  split.
  - induction s as [|c s IH]; cbn [Js.includes]; rewrite orb_true_iff; intros [H|H].
    + apply prefix_app in H as [post H]. now exists EmptyString, post.
    + discriminate.
    + apply prefix_app in H as [post H]. now exists EmptyString, post.
    + destruct (IH H) as [pre [post E]]. exists (String c pre), post.
      simpl. now rewrite E.
  - intros [pre [post E]]. subst s.
    induction pre as [|c pre IH].
    + assert (H : String.prefix p (p ++ post) = true)
        by (apply prefix_app; now exists post).
      cbn [String.append].
      destruct (p ++ post)%string; cbn [Js.includes]; rewrite H; reflexivity.
    + cbn [String.append Js.includes]. rewrite IH. apply orb_true_r.
Qed.

Lemma qualifies_enter (config : AuthInterceptorConfig) (error : AxiosError) :
  qualifies config error ->
  status_is_not_401 error = false /\
  url_includes error (authCheckPattern_or_default config) = false.
Proof.
  intros [[r [Hr H401]] Hurl]. split.
  - unfold status_is_not_401. rewrite Hr, H401. reflexivity.
  - unfold url_includes. destruct (Axios.config error) as [c|] eqn:Hc; [|reflexivity].
    destruct (url c) as [u|] eqn:Hu; [|reflexivity]. now apply (Hurl c u).
Qed.

(** With the guard free, a qualifying failure sets the guard, dispatches the
    verification once and suspends. *)
Lemma enter_dispatches (config : AuthInterceptorConfig) (error : AxiosError) (w : World) :
  qualifies config error -> isCheckingAuth w = false ->
  onRejected (createAuthInterceptor config) error w =
  (emit (DispatchCheckAuth config) (set_isCheckingAuth true w),
   AwaitCheckAuth config error).
Proof.
  intros Hq Hfree. destruct (qualifies_enter _ _ Hq) as [H1 H2].
  simpl. unfold onRejected_enter. now rewrite H1, H2, Hfree.
Qed.

(** With the guard taken, every interceptor rejects at once and leaves the
    world as it is. *)
Lemma enter_skips (i : Instance) (error : AxiosError) (w : World) :
  isCheckingAuth w = true ->
  onRejected (interceptor i) error w = (w, Settled (Rejects (Original error))).
Proof.
  intros Hbusy. destruct i as [config|]; simpl;
    unfold onRejected_enter, onRejected_legacy; rewrite Hbusy;
    repeat match goal with |- context [if ?b then _ else _] => destruct b end;
    reflexivity.
Qed.

(** What entering [onRejected] can do. *)
Lemma enter_cases (i : Instance) (error : AxiosError) (w : World) :
  onRejected (interceptor i) error w = (w, Settled (Rejects (Original error))) \/
  (isCheckingAuth w = false /\
   exists config,
     i = Configured config /\
     onRejected (interceptor i) error w =
     (emit (DispatchCheckAuth config) (set_isCheckingAuth true w),
      AwaitCheckAuth config error)) \/
  (isCheckingAuth w = false /\
   onRejected (interceptor i) error w =
   (finally (emit ConsoleWarn (set_isCheckingAuth true w)),
    Settled (Rejects (Original error)))).
Proof.
  destruct i as [config|]; simpl; unfold onRejected_enter, onRejected_legacy;
    repeat match goal with
           | |- context [if ?b then _ else _] => destruct b eqn:?
           end; auto.
  right; left. split; [reflexivity|]. now exists config.
Qed.

(** What resuming a suspended call can do: it ends, rejecting with its own
    error and with the guard released, or it goes on to await the logout
    with the guard as it was. *)
Lemma resume_cases (t : Task) (o : Outcome) (w : World) :
  suspended t = true ->
  exists config error,
    (t = AwaitCheckAuth config error \/ t = AwaitLogout config error) /\
    ((snd (resume t o w) = Settled (Rejects (Original error)) /\
      isCheckingAuth (fst (resume t o w)) = false) \/
     (t = AwaitCheckAuth config error /\
      resume t o w = (emit (DispatchLogout config) w, AwaitLogout config error))).
Proof.
  destruct t as [config error|config error|s]; [| |discriminate]; intros _;
    exists config, error; (split; [auto|]).
  - simpl. unfold onRejected_checked. destruct o as [a|err]; [|left; auto].
    destruct (matches (fulfilled (checkAuthAction config)) a); [left; auto|].
    match goal with |- context [match ?c with Js.Normal _ => _ | Js.Throw _ => _ end] =>
      destruct c as [[|]|why] end; auto.
  - simpl. unfold onRejected_loggedOut. destruct o; left; auto.
Qed.

Lemma count_app (p : Task -> bool) (ts us : list Task) :
  count p (ts ++ us) = (count p ts + count p us)%nat.
Proof. unfold count. now rewrite List.filter_app, List.length_app. Qed.

Lemma count_cons (p : Task -> bool) (t : Task) (ts : list Task) :
  count p (t :: ts) = ((if p t then 1 else 0) + count p ts)%nat.
Proof. unfold count. simpl. now destruct (p t). Qed.

Lemma verifying_le_suspended (ts : list Task) :
  (count verifying ts <= count suspended ts)%nat.
Proof.
  induction ts as [|t ts IH]; [reflexivity|].
  rewrite !count_cons. destruct t; simpl; lia.
Qed.

Lemma step_latched (s s' : System) : latched s -> step s s' -> latched s'.
Proof.
  unfold latched. intros Hs Hstep.
  destruct Hstep as [i error s w t Hcall|o w before after t w' t' Hsusp Hres];
    cbn [world tasks] in *.
  - rewrite count_app, count_cons. cbn [count List.filter List.length].
    destruct (enter_cases i error (world s))
      as [H|[[Hfree [config [_ H]]]|[Hfree H]]];
      rewrite H in Hcall; injection Hcall as <- <-; simpl.
    + lia.
    + rewrite Hfree in Hs. lia.
    + rewrite Hfree in Hs. lia.
  - rewrite count_app, count_cons in *. rewrite Hsusp in Hs.
    destruct (isCheckingAuth w) eqn:Hbusy; [|lia].
    destruct (resume_cases t o w Hsusp)
      as [config [error [_ [[Hend Hfree]|[_ Hnext]]]]];
      rewrite Hres in *; simpl in *.
    + rewrite Hend, Hfree. simpl. lia.
    + injection Hnext as -> ->. simpl. rewrite Hbusy. lia.
Qed.

Lemma reachable_latched (s : System) : reachable s -> latched s.
Proof.
  induction 1 as [here|s s' _ IH Hstep]; [reflexivity|].
  exact (step_latched s s' IH Hstep).
Qed.

Lemma occurrences_emit (p : Event -> bool) (e : Event) (w : World) :
  occurrences p (emit e w) = (occurrences p w + if p e then 1 else 0)%nat.
Proof.
  unfold occurrences, emit; simpl.
  rewrite List.filter_app, List.length_app. simpl. now destruct (p e).
Qed.

Lemma occurrences_set (p : Event -> bool) (b : bool) (w : World) :
  occurrences p (set_isCheckingAuth b w) = occurrences p w.
Proof. reflexivity. Qed.

(** A burst adds no verification when it starts with the guard taken, and
    at most one when it starts with the guard free. *)
Lemma burst_checks (calls : list (Instance * AxiosError)) (w : World) :
  (occurrences is_check (fst (burst calls w)) <=
   occurrences is_check w + if isCheckingAuth w then 0 else 1)%nat /\
  (count verifying (snd (burst calls w)) <=
   if isCheckingAuth w then 0 else 1)%nat.
Proof.
  revert w. induction calls as [|[i error] rest IH]; intros w.
  - simpl. split; [lia|destruct (isCheckingAuth w); cbn; lia].
  - cbn [burst].
    destruct (onRejected (interceptor i) error w) as [w1 t] eqn:Hcall.
    specialize (IH w1). destruct (burst rest w1) as [w2 ts]. cbn [fst snd] in *.
    rewrite count_cons.
    destruct (enter_cases i error w)
      as [H|[[Hfree [config [_ H]]]|[Hfree H]]];
      rewrite H in Hcall; injection Hcall as <- <-.
    + simpl. exact IH.
    + rewrite Hfree. rewrite occurrences_emit, occurrences_set in IH.
      simpl in IH |- *. lia.
    + rewrite Hfree. unfold finally in IH.
      rewrite occurrences_set, occurrences_emit, occurrences_set in IH.
      simpl in IH |- *. lia.
Qed.

(** Three failures in a row, on two configured interceptors and the legacy
    one: the first starts the verification, the others are turned away. *)
Example burst_of_three :
  burst [(Configured sample_config, failure 401 "/api/users");
         (Configured other_config, failure 401 "/api/orders");
         (Legacy, failure 401 "/api/items")]
        (idle (Some "/dashboard")) =
  ({| isCheckingAuth := true; pathname := Some "/dashboard";
      effects := [DispatchCheckAuth sample_config] |},
   [AwaitCheckAuth sample_config (failure 401 "/api/users");
    Settled (Rejects (Original (failure 401 "/api/orders")));
    Settled (Rejects (Original (failure 401 "/api/items")))]).
Proof. reflexivity. Qed.

(** The legacy interceptor alone: it takes and releases the guard within
    the call. *)
Example legacy_alone :
  onRejected createAuthInterceptorLegacy (failure 401 "/api/items")
    (idle (Some "/dashboard")) =
  ({| isCheckingAuth := false; pathname := Some "/dashboard";
      effects := [ConsoleWarn] |},
   Settled (Rejects (Original (failure 401 "/api/items")))).
Proof. reflexivity. Qed.

(** C1.  In every reachable state at most one verification is in flight, and
    none while the guard is free; a failure that arrives while
    [isCheckingAuth] is true is rejected at once with its own error and
    changes nothing (no dispatch); a burst of failures causes at most one
    verification dispatch, and at most one of its calls ends up awaiting a
    verification. *)
Theorem at_most_one_verification :
  (forall s, reachable s ->
     (count verifying (tasks s) <= 1)%nat /\
     (isCheckingAuth (world s) = false -> count suspended (tasks s) = 0%nat)) /\
  (forall (i : Instance) (error : AxiosError) (w : World),
     isCheckingAuth w = true ->
     onRejected (interceptor i) error w = (w, Settled (Rejects (Original error)))) /\
  (forall (calls : list (Instance * AxiosError)) (w : World),
     (occurrences is_check (fst (burst calls w)) <= occurrences is_check w + 1)%nat /\
     (count verifying (snd (burst calls w)) <= 1)%nat /\
     (isCheckingAuth w = true ->
      occurrences is_check (fst (burst calls w)) = occurrences is_check w)).
Proof.
  split; [|split].
  - intros s Hs. pose proof (reachable_latched s Hs) as Hl. unfold latched in Hl.
    pose proof (verifying_le_suspended (tasks s)).
    destruct (isCheckingAuth (world s)); split; try lia; discriminate.
  - exact enter_skips.
  - intros calls w. destruct (burst_checks calls w) as [H1 H2].
    split; [|split].
    + destruct (isCheckingAuth w); lia.
    + destruct (isCheckingAuth w); lia.
    + intros Hbusy. rewrite Hbusy in H1.
      assert (occurrences is_check w <= occurrences is_check (fst (burst calls w)))%nat;
        [|lia].
      clear. revert w. induction calls as [|[i error] rest IH]; intros w; [reflexivity|].
      cbn [burst].
      destruct (onRejected (interceptor i) error w) as [w1 t] eqn:Hcall.
      specialize (IH w1). destruct (burst rest w1) as [w2 ts]. cbn [fst] in *.
      destruct (enter_cases i error w)
        as [H|[[Hfree [config [_ H]]]|[Hfree H]]];
        rewrite H in Hcall; injection Hcall as <- <-;
        unfold finally in IH;
        rewrite ?occurrences_set, ?occurrences_emit, ?occurrences_set in IH;
        simpl in IH; lia.
Qed.

Lemma verifying_system_reachable : reachable verifying_system.
Proof.
  apply (reachable_step (initial (Some "/dashboard"))); [apply reachable_initial|].
  exact (step_call (Configured sample_config) (failure 401 "/api/users")
           (initial (Some "/dashboard")) _ _ eq_refl).
Defined.

Example at_most_one_verification_witness :
  reachable verifying_system /\
  (count verifying (tasks verifying_system) <= 1)%nat.
Proof.
  split; [exact verifying_system_reachable|].
  exact (proj1 (proj1 at_most_one_verification verifying_system
                  verifying_system_reachable)).
Defined.

Lemma checked_cases (config : AuthInterceptorConfig) (error : AxiosError)
    (o : Outcome) (w : World) :
  (snd (onRejected_checked config error o w) = Settled (Rejects (Original error)) /\
   isCheckingAuth (fst (onRejected_checked config error o w)) = false) \/
  onRejected_checked config error o w =
  (emit (DispatchLogout config) w, AwaitLogout config error).
Proof.
  destruct (resume_cases (AwaitCheckAuth config error) o w eq_refl)
    as [c [e [Ht [H|[_ H]]]]].
  - left. assert (e = error) by (destruct Ht; congruence). subst e. exact H.
  - right. assert (c = config /\ e = error) as [-> ->]
      by (destruct Ht; split; congruence).
    exact H.
Qed.

Lemma loggedOut_ends (config : AuthInterceptorConfig) (error : AxiosError)
    (o : Outcome) (w : World) :
  snd (onRejected_loggedOut config error o w) = Settled (Rejects (Original error)) /\
  isCheckingAuth (fst (onRejected_loggedOut config error o w)) = false.
Proof. unfold onRejected_loggedOut. destruct o; split; reflexivity. Qed.

Lemma run_among_settles (i : Instance) (error : AxiosError)
    (checked loggedOut : Outcome) (others1 others2 : World -> World) (w : World) :
  snd (run_among (interceptor i) error checked loggedOut others1 others2 w) =
  Settled (Rejects (Original error)).
Proof.
  unfold run_among.
  destruct (onRejected (interceptor i) error w) as [w1 t1] eqn:Hcall.
  destruct (enter_cases i error w)
    as [H|[[Hfree [config [_ H]]]|[Hfree H]]];
    rewrite H in Hcall; injection Hcall as <- <-; cbn [resume snd fst];
    try reflexivity.
  set (w1 := others1 _).
  destruct (checked_cases config error checked w1) as [[Hend _]|Hnext].
  - destruct (onRejected_checked config error checked w1) as [w2 t2].
    cbn [snd] in Hend. subst t2. reflexivity.
  - rewrite Hnext. cbn [resume]. apply loggedOut_ends.
Qed.

Lemma run_releases (config : AuthInterceptorConfig) (error : AxiosError)
    (checked loggedOut : Outcome) (w : World) :
  qualifies config error -> isCheckingAuth w = false ->
  isCheckingAuth
    (fst (run (createAuthInterceptor config) error checked loggedOut w)) = false.
Proof.
  intros Hq Hfree. unfold run, run_among.
  rewrite (enter_dispatches config error w Hq Hfree). cbn [resume].
  set (w1 := emit _ _).
  destruct (checked_cases config error checked w1) as [[Hend Hrel]|Hnext].
  - destruct (onRejected_checked config error checked w1) as [w2 t2].
    cbn [fst snd] in *. subst t2. exact Hrel.
  - rewrite Hnext. cbn [resume]. apply loggedOut_ends.
Qed.

(** C2.  A call that started a verification ends, however the verification
    (and the logout after it) settles, with the guard released; a suspended
    call that ends releases the guard whatever the world it resumes in; and
    the next qualifying failure then starts exactly one new verification. *)
Theorem guard_released_in_every_outcome :
  forall (config : AuthInterceptorConfig) (error : AxiosError)
         (checked loggedOut : Outcome) (w : World),
    qualifies config error -> isCheckingAuth w = false ->
    let final := run (createAuthInterceptor config) error checked loggedOut w in
    snd final = Settled (Rejects (Original error)) /\
    isCheckingAuth (fst final) = false /\
    (forall (t : Task) (o : Outcome) (w' : World) (s : Settlement),
       suspended t = true -> snd (resume t o w') = Settled s ->
       isCheckingAuth (fst (resume t o w')) = false) /\
    (forall (config' : AuthInterceptorConfig) (error' : AxiosError),
       qualifies config' error' ->
       onRejected (createAuthInterceptor config') error' (fst final) =
       (emit (DispatchCheckAuth config') (set_isCheckingAuth true (fst final)),
        AwaitCheckAuth config' error') /\
       occurrences is_check
         (fst (onRejected (createAuthInterceptor config') error' (fst final))) =
       (occurrences is_check (fst final) + 1)%nat).
Proof.
  intros config error checked loggedOut w Hq Hfree final.
  assert (Hrel : isCheckingAuth (fst final) = false)
    by (apply run_releases; assumption).
  split; [|split; [exact Hrel|split]].
  - apply (run_among_settles (Configured config)).
  - intros t o w' s Hsusp Hend.
    destruct (resume_cases t o w' Hsusp) as [c [e [_ [[_ H]|[_ H]]]]]; [exact H|].
    rewrite H in Hend. discriminate.
  - intros config' error' Hq'.
    rewrite (enter_dispatches config' error' (fst final) Hq' Hrel).
    split; [reflexivity|].
    cbn [fst]. now rewrite occurrences_emit, occurrences_set.
Qed.

(** C3.  Whatever the failure, the interceptor, the way the verification and
    the logout settle, and whatever other calls do in the meantime,
    [onRejected] ends rejected with the error it was given; [onFulfilled]
    returns its response. *)
Theorem original_failure_propagates :
  (forall (i : Instance) (error : AxiosError) (checked loggedOut : Outcome)
          (others1 others2 : World -> World) (w : World),
     snd (run_among (interceptor i) error checked loggedOut others1 others2 w) =
     Settled (Rejects (Original error))) /\
  (forall (i : Instance) (response : AxiosResponse),
     onFulfilled (interceptor i) response = response).
Proof.
  split.
  - exact run_among_settles.
  - intros [config|] response; reflexivity.
Qed.

Lemma sample_qualifies (config : AuthInterceptorConfig) :
  Js.includes "/api/users" (authCheckPattern_or_default config) = false ->
  qualifies config (failure 401 "/api/users").
Proof.
  intros Hurl. split.
  - eexists. split; reflexivity.
  - intros c u Hc Hu. injection Hc as <-. injection Hu as <-. exact Hurl.
Defined.

Example guard_released_in_every_outcome_witness :
  qualifies sample_config (failure 401 "/api/users") /\
  isCheckingAuth (idle (Some "/dashboard")) = false /\
  isCheckingAuth
    (fst (run (createAuthInterceptor sample_config) (failure 401 "/api/users")
            (Returns (rejected_action "auth/check" 401)) (Returns Js.Undefined)
            (idle (Some "/dashboard")))) = false.
Proof.
  split; [exact (sample_qualifies sample_config eq_refl)|].
  split; [reflexivity|].
  exact (proj1 (proj2
    (guard_released_in_every_outcome sample_config (failure 401 "/api/users")
       (Returns (rejected_action "auth/check" 401)) (Returns Js.Undefined)
       (idle (Some "/dashboard"))
       (sample_qualifies sample_config eq_refl) eq_refl))).
Defined.

(** C5.  With the guard free, when the verification is fulfilled the call
    has dispatched the verification and nothing else (no logout, no
    navigation), the guard is released and the call rejects with the
    original error. *)
Theorem still_valid_outcome :
  forall (config : AuthInterceptorConfig) (error : AxiosError)
         (resultAction : Js.Value) (loggedOut : Outcome) (w : World),
    qualifies config error -> isCheckingAuth w = false ->
    matches (fulfilled (checkAuthAction config)) resultAction = true ->
    run (createAuthInterceptor config) error (Returns resultAction) loggedOut w =
    ({| isCheckingAuth := false; pathname := pathname w;
        effects := effects w ++ [DispatchCheckAuth config] |},
     Settled (Rejects (Original error))).
Proof.
  intros config error resultAction loggedOut w Hq Hfree Hvalid.
  unfold run, run_among.
  rewrite (enter_dispatches config error w Hq Hfree). cbn [resume].
  unfold onRejected_checked. rewrite Hvalid. reflexivity.
Qed.

Example still_valid_outcome_witness :
  run (createAuthInterceptor sample_config) (failure 401 "/api/users")
    (Returns (fulfilled_action "auth/check")) (Returns Js.Undefined)
    (idle (Some "/dashboard")) =
  ({| isCheckingAuth := false; pathname := Some "/dashboard";
      effects := [DispatchCheckAuth sample_config] |},
   Settled (Rejects (Original (failure 401 "/api/users")))).
Proof.
  exact (still_valid_outcome sample_config (failure 401 "/api/users")
           (fulfilled_action "auth/check") (Returns Js.Undefined)
           (idle (Some "/dashboard"))
           (sample_qualifies sample_config eq_refl) eq_refl eq_refl).
Defined.

(** C6.  A failure whose status is not 401 (or that has no response), and a
    failure whose URL contains the verification pattern, is rejected at once
    with the same error and the world is left as it was: no dispatch, no
    navigation, the guard untouched, also after the call. *)
Theorem non_qualifying_failure_passes_through :
  forall (config : AuthInterceptorConfig) (error : AxiosError)
         (checked loggedOut : Outcome) (w : World),
    (forall r, response error = Some r -> status r <> 401) \/
    (exists c u pre post,
       Axios.config error = Some c /\ url c = Some u /\
       u = (pre ++ authCheckPattern_or_default config ++ post)%string) ->
    onRejected (createAuthInterceptor config) error w =
    (w, Settled (Rejects (Original error))) /\
    run (createAuthInterceptor config) error checked loggedOut w =
    (w, Settled (Rejects (Original error))).
Proof.
  intros config error checked loggedOut w H.
  assert (Hskip : onRejected (createAuthInterceptor config) error w =
                  (w, Settled (Rejects (Original error)))).
  { simpl. unfold onRejected_enter. destruct H as [H|[c [u [pre [post [Hc [Hu E]]]]]]].
    - assert (Hs : status_is_not_401 error = true).
      { unfold status_is_not_401. destruct (response error) as [r|]; [|reflexivity].
        apply negb_true_iff, Z.eqb_neq. now apply H. }
      now rewrite Hs.
    - assert (Hi : url_includes error (authCheckPattern_or_default config) = true).
      { unfold url_includes. rewrite Hc, Hu. apply includes_spec. now exists pre, post. }
      rewrite Hi. now destruct (status_is_not_401 error). }
  split; [exact Hskip|].
  unfold run, run_among. rewrite Hskip. reflexivity.
Qed.

Example non_qualifying_failure_passes_through_witness :
  onRejected (createAuthInterceptor sample_config) (failure 401 "/api/v1/me/check")
    (idle (Some "/dashboard")) =
  (idle (Some "/dashboard"),
   Settled (Rejects (Original (failure 401 "/api/v1/me/check")))).
Proof.
  refine (proj1 (non_qualifying_failure_passes_through sample_config
                   (failure 401 "/api/v1/me/check")
                   (Returns Js.Undefined) (Returns Js.Undefined)
                   (idle (Some "/dashboard")) _)).
  right. exists {| url := Some "/api/v1/me/check" |}, "/api/v1/me/check", "/api/v1", "".
  repeat split.
Defined.

(** C10.  Both factories read and write the one [isCheckingAuth]: once any
    configured interceptor has started a verification, and in every
    reachable state with a verification in flight, a failure handled by any
    interceptor (any configuration, or the legacy one) is rejected at once
    and dispatches nothing; with the guard free the same failure, if it
    qualifies, would have started a verification of its own. *)
Theorem guard_shared_by_all_interceptors :
  (forall (config : AuthInterceptorConfig) (error : AxiosError) (w : World)
          (other : Instance) (error' : AxiosError),
     qualifies config error -> isCheckingAuth w = false ->
     let busy := fst (onRejected (createAuthInterceptor config) error w) in
     onRejected (interceptor other) error' busy =
     (busy, Settled (Rejects (Original error')))) /\
  (forall (s : System) (other : Instance) (error' : AxiosError),
     reachable s -> (1 <= count verifying (tasks s))%nat ->
     onRejected (interceptor other) error' (world s) =
     (world s, Settled (Rejects (Original error')))) /\
  (forall (config' : AuthInterceptorConfig) (error' : AxiosError) (w : World),
     qualifies config' error' -> isCheckingAuth w = false ->
     onRejected (interceptor (Configured config')) error' w =
     (emit (DispatchCheckAuth config') (set_isCheckingAuth true w),
      AwaitCheckAuth config' error')).
Proof.
  split; [|split].
  - intros config error w other error' Hq Hfree busy. subst busy.
    rewrite (enter_dispatches config error w Hq Hfree). cbn [fst].
    now apply enter_skips.
  - intros s other error' Hs Hin. apply enter_skips.
    pose proof (reachable_latched s Hs) as Hl. unfold latched in Hl.
    pose proof (verifying_le_suspended (tasks s)).
    destruct (isCheckingAuth (world s)); [reflexivity|lia].
  - intros config' error' w Hq Hfree. now apply enter_dispatches.
Qed.

Example guard_shared_by_all_interceptors_witness :
  reachable verifying_system /\
  (1 <= count verifying (tasks verifying_system))%nat /\
  onRejected (interceptor (Configured other_config)) (failure 401 "/api/users")
    (world verifying_system) =
  (world verifying_system, Settled (Rejects (Original (failure 401 "/api/users")))) /\
  onRejected (interceptor Legacy) (failure 401 "/api/users")
    (world verifying_system) =
  (world verifying_system, Settled (Rejects (Original (failure 401 "/api/users")))).
Proof.
  assert (Hin : (1 <= count verifying (tasks verifying_system))%nat)
    by (cbn; apply le_n).
  split; [exact verifying_system_reachable|]. split; [exact Hin|].
  split.
  - exact (proj1 (proj2 guard_shared_by_all_interceptors) verifying_system
             (Configured other_config) (failure 401 "/api/users")
             verifying_system_reachable Hin).
  - exact (proj1 (proj2 guard_shared_by_all_interceptors) verifying_system
             Legacy (failure 401 "/api/users")
             verifying_system_reachable Hin).
Defined.

(** The code's test on the rejected action succeeds exactly when
    [resultAction.payload.error.statusCode] is the number 401. *)
Lemma confirmed_iff (resultAction : Js.Value) :
  Js.bind (Js.member resultAction "payload") payload_is_401 = Js.Normal true <->
  reasonStatus resultAction = Some (Js.Num 401).
Proof.
  unfold reasonStatus, payload_is_401, Js.member, Js.opt_member, Js.member.
  destruct (Js.nullish resultAction); cbn [Js.bind]; [split; discriminate|].
  destruct (Js.nullish (Js.lookup resultAction "payload")) eqn:Hp; cbn [Js.bind Js.nullish];
    [split; discriminate|].
  destruct (Js.nullish (Js.lookup (Js.lookup resultAction "payload") "error")) eqn:He;
    cbn [Js.bind Js.strict_eq_num]; [split; discriminate|].
  destruct (Js.lookup (Js.lookup (Js.lookup resultAction "payload") "error") "statusCode");
    cbn [Js.strict_eq_num]; try (split; discriminate).
  split.
  - intros H. injection H as H. apply Z.eqb_eq in H. now subst.
  - intros H. injection H as ->. reflexivity.
Qed.

(** C4, as the code has it.  With the guard free, when the verification is
    rejected (and not fulfilled), the call ends rejected with the original
    error and the guard released, and:
    - if the rejected payload's [error.statusCode] is 401, [logoutAction] is
      dispatched exactly once; if that dispatch returns, the call navigates
      to [loginPath] exactly once when there is a window whose pathname
      differs from [loginPath], and not at all when there is no window or
      the pathname is [loginPath];
    - otherwise there is neither a logout nor a navigation. *)
Theorem confirmed_invalid_outcome :
  forall (config : AuthInterceptorConfig) (error : AxiosError)
         (resultAction : Js.Value) (loggedOut : Outcome) (w : World),
    qualifies config error -> isCheckingAuth w = false ->
    matches (fulfilled (checkAuthAction config)) resultAction = false ->
    matches (rejected (checkAuthAction config)) resultAction = true ->
    let final := run (createAuthInterceptor config) error
                   (Returns resultAction) loggedOut w in
    snd final = Settled (Rejects (Original error)) /\
    isCheckingAuth (fst final) = false /\
    (reasonStatus resultAction = Some (Js.Num 401) ->
     occurrences is_logout (fst final) = (occurrences is_logout w + 1)%nat /\
     forall v, loggedOut = Returns v ->
       effects (fst final) =
       (effects w ++ [DispatchCheckAuth config; DispatchLogout config] ++
        match pathname w with
        | Some here =>
            if (here =? loginPath_or_default config)%string then []
            else [Navigate (loginPath_or_default config)]
        | None => []
        end)%list) /\
    (reasonStatus resultAction <> Some (Js.Num 401) ->
     occurrences is_logout (fst final) = occurrences is_logout w /\
     occurrences is_navigate (fst final) = occurrences is_navigate w).
Proof.
  intros config error resultAction loggedOut w Hq Hfree Hnot Hrej final.
  split; [apply (run_among_settles (Configured config))|].
  split; [apply run_releases; assumption|].
  subst final. unfold run, run_among.
  rewrite (enter_dispatches config error w Hq Hfree). cbn [resume].
  unfold onRejected_checked. rewrite Hnot, Hrej.
  pose proof (confirmed_iff resultAction) as Hiff.
  destruct (Js.bind (Js.member resultAction "payload") payload_is_401)
    as [[|]|why]; cbn [resume fst].
  - split; [|intros Hne; exfalso; apply Hne, Hiff; reflexivity].
    intros _. unfold onRejected_loggedOut. split.
    + destruct loggedOut as [v|err]; cbn [fst pathname emit set_isCheckingAuth];
        [destruct (pathname w) as [here|];
         [destruct (negb (here =? loginPath_or_default config)%string)|]|];
        unfold finally, catch;
        rewrite ?occurrences_set, ?occurrences_emit, ?occurrences_set;
        cbn [is_logout]; lia.
    + intros v ->. cbn [fst pathname emit set_isCheckingAuth].
      destruct (pathname w) as [here|];
        [destruct (here =? loginPath_or_default config)%string|];
        cbn [negb finally emit set_isCheckingAuth effects pathname isCheckingAuth];
        rewrite <- ?app_assoc; reflexivity.
  - split; [intros H; apply Hiff in H; discriminate|].
    intros _. unfold finally.
    rewrite !occurrences_set, !occurrences_emit, !occurrences_set. cbn. lia.
  - split; [intros H; apply Hiff in H; discriminate|].
    intros _. unfold finally, catch.
    rewrite !occurrences_set, !occurrences_emit, !occurrences_set. cbn. lia.
Qed.

Example confirmed_invalid_outcome_witness :
  effects
    (fst (run (createAuthInterceptor sample_config) (failure 401 "/api/users")
            (Returns (rejected_action "auth/check" 401)) (Returns Js.Undefined)
            (idle (Some "/dashboard")))) =
  [DispatchCheckAuth sample_config; DispatchLogout sample_config; Navigate "/login"].
Proof.
  exact (proj2 (proj1 (proj2 (proj2
    (confirmed_invalid_outcome sample_config (failure 401 "/api/users")
       (rejected_action "auth/check" 401) (Returns Js.Undefined)
       (idle (Some "/dashboard"))
       (sample_qualifies sample_config eq_refl) eq_refl eq_refl eq_refl))) eq_refl)
    Js.Undefined eq_refl).
Defined.

(** C4 fails as stated.  The verification is rejected with status 401 and
    the current location is not the login path, yet there is no navigation:
    once because there is no window, once because the logout dispatch
    throws.  The logout is dispatched in both. *)
Example confirmed_invalid_without_navigation :
  qualifies sample_config (failure 401 "/api/users") /\
  matches (fulfilled (checkAuthAction sample_config))
    (rejected_action "auth/check" 401) = false /\
  matches (rejected (checkAuthAction sample_config))
    (rejected_action "auth/check" 401) = true /\
  reasonStatus (rejected_action "auth/check" 401) = Some (Js.Num 401) /\
  (pathname (idle None) <> Some (loginPath_or_default sample_config) /\
   run (createAuthInterceptor sample_config) (failure 401 "/api/users")
     (Returns (rejected_action "auth/check" 401)) (Returns Js.Undefined)
     (idle None) =
   ({| isCheckingAuth := false; pathname := None;
       effects := [DispatchCheckAuth sample_config; DispatchLogout sample_config] |},
    Settled (Rejects (Original (failure 401 "/api/users"))))) /\
  (pathname (idle (Some "/dashboard")) <> Some (loginPath_or_default sample_config) /\
   run (createAuthInterceptor sample_config) (failure 401 "/api/users")
     (Returns (rejected_action "auth/check" 401)) (Throws (Js.Str "network down"))
     (idle (Some "/dashboard")) =
   ({| isCheckingAuth := false; pathname := Some "/dashboard";
       effects := [DispatchCheckAuth sample_config; DispatchLogout sample_config;
                   ConsoleError (Js.Str "network down")] |},
    Settled (Rejects (Original (failure 401 "/api/users"))))).
Proof.
  split; [exact (sample_qualifies sample_config eq_refl)|].
  repeat split; discriminate.
Qed.

End Coordinator.

(* ================================================================== *)
(** * More on the error classifier and its helpers *)

Section ClassifierShapes.
Import Js ErrorHandler ErrorHelpers.

Lemma classify_axios (e : Axios.AxiosError) :
  processStoreError (Axios.to_js e) =
  Normal {| statusCode := Num (status_of e);
            message :=
              (let v := field (body_of e) "message" in
               if truthy v then v
               else Str (if (Axios.message e =? "")%string
                         then communication_message else Axios.message e));
            data := body_of e; isAxiosError := true;
            originalError := Axios.to_js e |}.
Proof.
  destruct e as [m cfg resp].
  unfold processStoreError, Axios.to_js, Axios.response_to_js, status_of, body_of, field.
  cbn [instanceof extends Axios.message Axios.config Axios.response].
  rewrite !member_normal by reflexivity.
  destruct cfg as [c|], resp as [r|];
    cbn [bind app lookup assoc inherited extends andb String.eqb Ascii.eqb Bool.eqb];
    repeat (rewrite opt_member_total;
            cbn [bind nullish lookup assoc String.eqb Ascii.eqb Bool.eqb]);
    rewrite ?logical_or_status; unfold logical_or; cbn [truthy Z.eqb negb];
    destruct (m =? "")%string; reflexivity.
Qed.

Lemma classify_error_instance (props : list (string * Value)) :
  processStoreError (Obj ClsError props) =
  Normal {| statusCode := Num 0;
            message := match assoc "message" props with
                       | Some m => m
                       | None => Str ""
                       end;
            data := Undefined; isAxiosError := false;
            originalError := Obj ClsError props |}.
Proof.
  unfold processStoreError. cbn [instanceof extends].
  rewrite member_normal by reflexivity. cbn [bind lookup].
  destruct (assoc "message" props); reflexivity.
Qed.

Lemma classify_object (props : list (string * Value)) :
  processStoreError (Obj ClsObject props) =
  Normal {| statusCode := match assoc "statusCode" props with
                          | Some (Num n) => Num n
                          | _ => Num 0
                          end;
            message := match assoc "message" props with
                       | Some (Str s) => if blank s then Str default_message else Str s
                       | _ => Str default_message
                       end;
            data := match assoc "data" props with
                    | Some d => d
                    | None => Undefined
                    end;
            isAxiosError := false;
            originalError := Obj ClsObject props |}.
Proof.
  unfold processStoreError. cbn [instanceof extends].
  rewrite nonblank_string_normal. cbn [bind truthy is_object typeof andb].
  unfold has_nonblank_message, has_numeric_statusCode, has_property.
  cbn [inherited extends andb].
  rewrite !member_normal by reflexivity. cbn [lookup inherited extends andb].
  destruct (assoc "message" props) as [m|]; cbn [bind];
    rewrite ?nonblank_string_normal; cbn [bind];
    destruct (assoc "statusCode" props) as [c|]; cbn [bind];
    destruct (assoc "data" props) as [d|]; cbn [bind];
    try (destruct m; try destruct (blank s)); cbn [negb bind];
    try (destruct c); reflexivity.
Qed.

Lemma classify_other (error : Value) :
  is_string error = false ->
  (forall cls props, error <> Obj cls props) ->
  processStoreError error = Normal (generic error).
Proof.
  intros Hs Ho. destruct error;
    try discriminate; try reflexivity;
    try (unfold processStoreError; cbn; rewrite ?andb_false_r; reflexivity).
  exfalso. eapply Ho. reflexivity.
Qed.

End ClassifierShapes.

Section ClassifierExtras.
Import Js ErrorHandler ErrorHelpers.

Lemma classify_string (s : string) :
  processStoreError (Str s) =
  Normal {| statusCode := Num 0;
            message := Str (if blank s then default_message else s);
            data := Undefined; isAxiosError := false; originalError := Str s |}.
Proof.
  unfold processStoreError. cbn [instanceof].
  rewrite nonblank_string_normal. cbn [bind].
  destruct (blank s); cbn [negb]; [|reflexivity].
  cbn [is_object typeof]. now rewrite andb_false_r.
Qed.

(** What the classifier does on each shape of value, the ill-typed
    [AxiosError] objects apart. *)
Lemma classify_shapes (error : Value) :
  (exists props, error = Obj ClsAxiosError props) \/
  (exists props, error = Obj ClsError props) \/
  (exists props, error = Obj ClsObject props) \/
  (exists s, error = Str s) \/
  processStoreError error = Normal (generic error).
Proof.
  destruct error as [| | | | | |[| |] props| | |];
    try (right; right; right; right; apply classify_other;
         [reflexivity|discriminate]).
  - right; right; right; left. now eexists.
  - right; right; left. now eexists.
  - right; left. now eexists.
  - left. now eexists.
Qed.

(** An [Error] keeps its message as it is: there is no fallback, and an
    [Error] built without a message is classified with the empty message.
    The status is 0 and there is no data. *)
Theorem error_instance_keeps_its_message :
  forall props : list (string * Value),
  exists pe,
    processStoreError (Obj ClsError props) = Normal pe /\
    statusCode pe = Num 0 /\ data pe = Undefined /\ isAxiosError pe = false /\
    (forall m, assoc "message" props = Some m -> message pe = m) /\
    (assoc "message" props = None -> message pe = Str "").
Proof.
  intros props. eexists. split; [apply classify_error_instance|].
  cbn [statusCode data isAxiosError message].
  repeat split.
  - now intros m ->.
  - now intros ->.
Qed.

Example error_instance_keeps_its_message_witness :
  assoc "message" [] = None /\
  exists pe, processStoreError (Obj ClsError []) = Normal pe /\ message pe = Str "".
Proof.
  split; [reflexivity|].
  destruct (error_instance_keeps_its_message []) as [pe [Hrun [_ [_ [_ [_ Hnone]]]]]].
  exists pe. split; [exact Hrun|]. apply Hnone. reflexivity.
Defined.

(** On a plain object the three fields are read independently: [statusCode]
    only when it is a number, [message] only when it is a string with a code
    unit that is not white space, [data] whenever the key is there (even
    with the value [undefined]); each one that is not read keeps its
    default. *)
Theorem custom_object_fields :
  forall props : list (string * Value),
    processStoreError (Obj ClsObject props) =
    Normal {| statusCode := match assoc "statusCode" props with
                            | Some (Num n) => Num n
                            | _ => Num 0
                            end;
              message := match assoc "message" props with
                         | Some (Str s) =>
                             if blank s then Str default_message else Str s
                         | _ => Str default_message
                         end;
              data := match assoc "data" props with
                      | Some d => d
                      | None => Undefined
                      end;
              isAxiosError := false;
              originalError := Obj ClsObject props |}.
Proof. exact classify_object. Qed.



(** The classified status is a number on every value that is not an
    [AxiosError], and on every [AxiosError] of the declared type, where it
    is the response's status, or 0 without a response. *)
Theorem classified_status_is_a_number :
  (forall (error : Value) (pe : ProcessedError),
     instanceof error ClsAxiosError = false ->
     processStoreError error = Normal pe ->
     exists n, statusCode pe = Num n) /\
  (forall e : Axios.AxiosError,
     exists pe, processStoreError (Axios.to_js e) = Normal pe /\
                statusCode pe = Num (status_of e)).
Proof.
  split.
  - intros error pe Hna Hrun.
    destruct (classify_shapes error)
      as [[props ->]|[[props ->]|[[props ->]|[[s ->]|H]]]].
    + discriminate.
    + rewrite classify_error_instance in Hrun. injection Hrun as <-. now exists 0.
    + rewrite classify_object in Hrun. injection Hrun as <-. cbn [statusCode].
      destruct (assoc "statusCode" props) as [[]|]; eexists; reflexivity.
    + rewrite classify_string in Hrun. injection Hrun as <-. now exists 0.
    + rewrite H in Hrun. injection Hrun as <-. now exists 0.
  - intros e. eexists. split; [apply classify_axios|reflexivity].
Qed.

Example classified_status_is_a_number_witness :
  exists n,
    statusCode {| statusCode := Num 0; message := Str "Something went wrong";
                  data := Undefined; isAxiosError := false;
                  originalError := Obj ClsError [("message", Str "Something went wrong")] |}
    = Num n.
Proof.
  exact (proj1 classified_status_is_a_number
           (Obj ClsError [("message", Str "Something went wrong")]) _
           eq_refl eq_refl).
Defined.

(** Whatever the value, the record keeps it as [originalError], and
    [isAxiosError] is set exactly on instances of [AxiosError]; so nothing
    but an [AxiosError] is ever classified as a network error, although
    strings, [Error]s and unreadable values get status 0 too. *)
Theorem original_kept_and_transport_flag :
  forall (error : Value) (pe : ProcessedError),
    processStoreError error = Normal pe ->
    originalError pe = error /\
    isAxiosError pe = instanceof error ClsAxiosError /\
    (instanceof error ClsAxiosError = false -> isNetworkError pe = false).
Proof.
  intros error pe Hrun.
  assert (H : originalError pe = error /\
              isAxiosError pe = instanceof error ClsAxiosError).
  { destruct (classify_shapes error)
      as [[props ->]|[[props ->]|[[props ->]|[[s ->]|H]]]].
    - unfold processStoreError in Hrun. cbn [instanceof extends] in Hrun.
      rewrite member_normal in Hrun by reflexivity. cbn [bind] in Hrun.
      repeat (rewrite opt_member_total in Hrun; cbn [bind] in Hrun).
      rewrite member_normal in Hrun by reflexivity. cbn [bind] in Hrun.
      injection Hrun as <-. split; reflexivity.
    - rewrite classify_error_instance in Hrun. injection Hrun as <-. split; reflexivity.
    - rewrite classify_object in Hrun. injection Hrun as <-. split; reflexivity.
    - rewrite classify_string in Hrun. injection Hrun as <-. split; reflexivity.
    - rewrite H in Hrun. injection Hrun as <-. split; [reflexivity|].
      cbn [generic isAxiosError]. destruct error; try reflexivity.
      destruct cls; try reflexivity.
      unfold processStoreError in H. cbn [instanceof extends] in H.
      rewrite member_normal in H by reflexivity. cbn [bind] in H.
      repeat (rewrite opt_member_total in H; cbn [bind] in H).
      rewrite member_normal in H by reflexivity. cbn [bind] in H.
      discriminate. }
  destruct H as [H1 H2]. repeat split; try assumption.
  intros Hna. unfold isNetworkError. now rewrite H2, Hna.
Qed.

Example original_kept_and_transport_flag_witness :
  isNetworkError
    {| statusCode := Num 0; message := Str "offline"; data := Undefined;
       isAxiosError := false; originalError := Str "offline" |} = false.
Proof.
  exact (proj2 (proj2 (original_kept_and_transport_flag (Str "offline") _ eq_refl))
           eq_refl).
Defined.

End ClassifierExtras.

Section HelperExtras.
Import Js ErrorHandler ErrorHelpers.

Lemma classes_by_status (pe : ProcessedError) (n : Z) :
  statusCode pe = Num n ->
  isNetworkError pe = isAxiosError pe && (n =? 0) /\
  isAuthError pe = (n =? 401) /\
  isAuthorizationError pe = (n =? 403) /\
  isValidationError pe = (n =? 422) /\
  isServerError pe = (500 <=? n).
Proof.
  intros H. unfold isNetworkError, isAuthError, isAuthorizationError,
    isValidationError, isServerError. rewrite H. repeat split.
Qed.

(** The five classes exclude one another: a record with a numeric status is
    in at most one of network, authentication, authorization, validation and
    server error. *)
Theorem error_classes_exclusive :
  forall (pe : ProcessedError) (n : Z),
    statusCode pe = Num n ->
    (Nat.b2n (isNetworkError pe) + Nat.b2n (isAuthError pe) +
     Nat.b2n (isAuthorizationError pe) + Nat.b2n (isValidationError pe) +
     Nat.b2n (isServerError pe) <= 1)%nat.
Proof.
  intros pe n H.
  destruct (classes_by_status pe n H) as [-> [-> [-> [-> ->]]]].
  destruct (isAxiosError pe); cbn [andb];
    destruct (n =? 0) eqn:E0; destruct (n =? 401) eqn:E1;
    destruct (n =? 403) eqn:E3; destruct (n =? 422) eqn:E2;
    destruct (500 <=? n) eqn:E5; cbn; try lia;
    rewrite ?Z.eqb_eq, ?Z.leb_le in *; lia.
Qed.

Example error_classes_exclusive_witness :
  (Nat.b2n (isNetworkError (generic Null)) + Nat.b2n (isAuthError (generic Null)) +
   Nat.b2n (isAuthorizationError (generic Null)) +
   Nat.b2n (isValidationError (generic Null)) +
   Nat.b2n (isServerError (generic Null)) <= 1)%nat.
Proof. exact (error_classes_exclusive (generic Null) 0 eq_refl). Defined.

(** [getUserFriendlyMessage] gives each class its own sentence, whatever the
    order of its tests, and gives back the record's message exactly when the
    record (with a numeric status) is in none of the five classes. *)
Theorem friendly_message_by_class :
  forall (pe : ProcessedError) (n : Z),
    statusCode pe = Num n ->
    (isNetworkError pe = true -> getUserFriendlyMessage pe = Str network_sentence) /\
    (isAuthError pe = true -> getUserFriendlyMessage pe = Str session_sentence) /\
    (isAuthorizationError pe = true ->
     getUserFriendlyMessage pe = Str permission_sentence) /\
    (isValidationError pe = true ->
     getUserFriendlyMessage pe = Str validation_sentence) /\
    (isServerError pe = true -> getUserFriendlyMessage pe = Str server_sentence) /\
    (isNetworkError pe = false -> isAuthError pe = false ->
     isAuthorizationError pe = false -> isValidationError pe = false ->
     isServerError pe = false -> getUserFriendlyMessage pe = message pe).
Proof.
  intros pe n H.
  destruct (classes_by_status pe n H) as [Hn [Ha [Hz [Hv Hs]]]].
  unfold getUserFriendlyMessage. rewrite Hn, Ha, Hz, Hv, Hs.
  destruct (isAxiosError pe); cbn [andb];
    destruct (n =? 0) eqn:E0; destruct (n =? 401) eqn:E1;
    destruct (n =? 403) eqn:E3; destruct (n =? 422) eqn:E2;
    destruct (500 <=? n) eqn:E5;
    repeat split; intros; try reflexivity; try discriminate;
    rewrite ?Z.eqb_eq, ?Z.leb_le in *; lia.
Qed.

Example friendly_message_by_class_witness :
  getUserFriendlyMessage
    {| statusCode := Num 403; message := Str "Forbidden"; data := Undefined;
       isAxiosError := true; originalError := Null |} = Str permission_sentence.
Proof.
  exact (proj1 (proj2 (proj2
    (friendly_message_by_class
       {| statusCode := Num 403; message := Str "Forbidden"; data := Undefined;
          isAxiosError := true; originalError := Null |} 403 eq_refl))) eq_refl).
Defined.

(** A transport failure of the declared type gets its sentence from its
    status alone: the connection sentence without a response (or with status
    0), the session, permission and validation sentences for 401, 403 and
    422, the server sentence from 500 on, and in every other case the
    classified message. *)
Theorem friendly_message_of_transport_failure :
  forall e : Axios.AxiosError,
  exists pe,
    processStoreError (Axios.to_js e) = Normal pe /\
    getUserFriendlyMessage pe =
    (if status_of e =? 0 then Str network_sentence
     else if status_of e =? 401 then Str session_sentence
     else if status_of e =? 403 then Str permission_sentence
     else if status_of e =? 422 then Str validation_sentence
     else if 500 <=? status_of e then Str server_sentence
     else message pe).
Proof.
  intros e. eexists. split; [apply classify_axios|].
  unfold getUserFriendlyMessage, isNetworkError, isAuthError, isAuthorizationError,
    isValidationError, isServerError.
  cbn [statusCode isAxiosError message strict_eq_num ge_num andb]. reflexivity.
Qed.

Lemma extract_cases (pe : ProcessedError) :
  extractValidationErrors pe =
  Normal (if isValidationError pe && truthy (field (data pe) "errors")
          then field (data pe) "errors" else Null).
Proof.
  unfold extractValidationErrors, has_validation_errors, isValidationError, field.
  destruct (strict_eq_num (statusCode pe) 422); cbn [bind andb]; [|reflexivity].
  rewrite opt_member_total. cbn [bind].
  destruct (nullish (data pe)) eqn:Hn; [reflexivity|].
  destruct (truthy (lookup (data pe) "errors")); [|reflexivity].
  now apply member_normal.
Qed.



(** Classifying a transport failure and extracting its validation errors
    gives the response body's [errors] exactly when the response has status
    422 and a truthy [errors]; in every other case (another status, no
    response, no body, no [errors]) it gives [null]. *)
Theorem validation_errors_of_transport_failure :
  forall e : Axios.AxiosError,
  exists pe,
    processStoreError (Axios.to_js e) = Normal pe /\
    extractValidationErrors pe =
    Normal (if (status_of e =? 422) && truthy (field (body_of e) "errors")
            then field (body_of e) "errors" else Null).
Proof.
  intros e. eexists. split; [apply classify_axios|].
  rewrite extract_cases. reflexivity.
Qed.

End HelperExtras.

(* ================================================================== *)
(** * More on the re-authentication interceptor *)

Section CoordinatorExtras.
Import Axios AuthInterceptor Accounting.

(** The legacy interceptor never verifies, logs out or navigates, and hands
    the guard back as it found it: it rejects with the error it was given
    and either leaves the world untouched or, for a 401 that is not a
    [/me/check] request and with the guard free, only adds its warning. *)
Theorem legacy_only_warns :
  forall (error : AxiosError) (w : World),
    snd (onRejected createAuthInterceptorLegacy error w) =
    Settled (Rejects (Original error)) /\
    (fst (onRejected createAuthInterceptorLegacy error w) = w \/
     (isCheckingAuth w = false /\ status_is_not_401 error = false /\
      url_includes error "/me/check" = false /\
      fst (onRejected createAuthInterceptorLegacy error w) = emit ConsoleWarn w)).
Proof.
  intros error w. simpl. unfold onRejected_legacy.
  destruct (status_is_not_401 error); [split; auto|].
  destruct (url_includes error "/me/check"); [split; auto|].
  destruct (isCheckingAuth w) eqn:Hfree; [split; auto|].
  split; [reflexivity|]. right. repeat split.
  destruct w as [flag here done]. cbn in Hfree. subst flag. reflexivity.
Qed.

Lemma includes_empty (s : string) : Js.includes s "" = true.
Proof. destruct s; reflexivity. Qed.

(** With an empty [authCheckPattern] every URL contains the pattern: a
    failure that has a URL is never verified, whatever its status and
    whatever the guard. *)
Theorem empty_pattern_disables_verification :
  forall (config : AuthInterceptorConfig) (error : AxiosError)
         (c : AxiosRequestConfig) (u : string) (w : World),
    authCheckPattern config = Some "" ->
    Axios.config error = Some c -> url c = Some u ->
    onRejected (createAuthInterceptor config) error w =
    (w, Settled (Rejects (Original error))).
Proof.
  intros config error c u w Hp Hc Hu. simpl. unfold onRejected_enter.
  unfold authCheckPattern_or_default, url_includes. rewrite Hp, Hc, Hu, includes_empty.
  now destruct (status_is_not_401 error).
Qed.

Example empty_pattern_disables_verification_witness :
  onRejected
    (createAuthInterceptor
       {| store := "store"; checkAuthAction := asyncThunk "auth/check";
          logoutAction := "auth/logout"; authCheckPattern := Some "";
          loginPath := None |})
    (failure 401 "/api/users") (idle (Some "/dashboard")) =
  (idle (Some "/dashboard"),
   Settled (Rejects (Original (failure 401 "/api/users")))).
Proof.
  exact (empty_pattern_disables_verification
           {| store := "store"; checkAuthAction := asyncThunk "auth/check";
              logoutAction := "auth/logout"; authCheckPattern := Some "";
              loginPath := None |} (failure 401 "/api/users")
           {| url := Some "/api/users" |} "/api/users" (idle (Some "/dashboard"))
           eq_refl eq_refl eq_refl).
Defined.

(** While the guard is taken (the verification has not settled), a burst of
    any length on any interceptors leaves the world exactly as it is and
    every one of its calls is rejected with its own error. *)
Theorem burst_while_verifying :
  forall (calls : list (Instance * AxiosError)) (w : World),
    isCheckingAuth w = true ->
    burst calls w = (w, turned_away calls).
Proof.
  intros calls w Hbusy. induction calls as [|[i error] rest IH]; [reflexivity|].
  cbn [burst turned_away List.map snd]. rewrite (enter_skips i error w Hbusy).
  fold (turned_away rest). now rewrite IH.
Qed.

Example burst_while_verifying_witness :
  burst [(Configured other_config, failure 401 "/api/orders");
         (Legacy, failure 401 "/api/items")] (world verifying_system) =
  (world verifying_system,
   [Settled (Rejects (Original (failure 401 "/api/orders")));
    Settled (Rejects (Original (failure 401 "/api/items")))]).
Proof.
  exact (burst_while_verifying
           [(Configured other_config, failure 401 "/api/orders");
            (Legacy, failure 401 "/api/items")] (world verifying_system) eq_refl).
Defined.

Lemma occurrences_finally (p : Event -> bool) (w : World) :
  occurrences p (finally w) = occurrences p w.
Proof. reflexivity. Qed.

Lemma occurrences_catch (p : Event -> bool) (err : Js.Value) (w : World) :
  p (ConsoleError err) = false ->
  occurrences p (catch err w) = occurrences p w.
Proof. intros H. unfold catch. rewrite occurrences_emit, H. lia. Qed.

(** What settling the verification adds: nothing that counts when the call
    ends there, one logout when it goes on. *)
Lemma checked_effects (config : AuthInterceptorConfig) (error : AxiosError)
    (o : Outcome) (w : World) :
  (suspended (snd (onRejected_checked config error o w)) = false /\
   forall p, (forall err, p (ConsoleError err) = false) ->
             occurrences p (fst (onRejected_checked config error o w)) =
             occurrences p w) \/
  onRejected_checked config error o w =
  (emit (DispatchLogout config) w, AwaitLogout config error).
Proof.
  unfold onRejected_checked. destruct o as [a|err].
  - destruct (matches (fulfilled (checkAuthAction config)) a);
      [left; split; [reflexivity|intros p _; reflexivity]|].
    match goal with |- context [match ?c with Js.Normal _ => _ | Js.Throw _ => _ end] =>
      destruct c as [[|]|why] end.
    + right. reflexivity.
    + left. split; [reflexivity|intros p _; reflexivity].
    + left. split; [reflexivity|]. intros p Hp. cbn [fst].
      rewrite occurrences_finally. now apply occurrences_catch.
  - left. split; [reflexivity|]. intros p Hp. cbn [fst].
    rewrite occurrences_finally. now apply occurrences_catch.
Qed.

(** What settling the logout adds: at most one navigation. *)
Lemma loggedOut_effects (config : AuthInterceptorConfig) (error : AxiosError)
    (o : Outcome) (w : World) :
  let w' := fst (onRejected_loggedOut config error o w) in
  occurrences is_check w' = occurrences is_check w /\
  occurrences is_logout w' = occurrences is_logout w /\
  (occurrences is_navigate w' <= occurrences is_navigate w + 1)%nat.
Proof.
  unfold onRejected_loggedOut. destruct o as [v|err]; cbn [fst].
  - destruct (pathname w) as [here|];
      [destruct (negb (here =? loginPath_or_default config)%string)|];
      rewrite !occurrences_finally, ?occurrences_emit; cbn; lia.
  - rewrite !occurrences_finally, !occurrences_catch by reflexivity. lia.
Qed.

Lemma step_balanced (s s' : System) : balanced s -> step s s' -> balanced s'.
Proof.
  unfold balanced. intros [H1 H2] Hstep.
  destruct Hstep as [i error s w t Hcall|o w before after t w' t' Hsusp Hres];
    cbn [world tasks] in *.
  - rewrite !count_app, !count_cons. cbn [count List.filter List.length].
    destruct (enter_cases i error (world s))
      as [H|[[Hfree [config [_ H]]]|[Hfree H]]];
      rewrite H in Hcall; injection Hcall as <- <-;
      unfold finally;
      rewrite ?occurrences_set, ?occurrences_emit, ?occurrences_set;
      cbn; lia.
  - rewrite !count_app, !count_cons in *.
    destruct t as [config error|config error|st]; [| |discriminate];
      cbn [resume] in Hres; cbn [verifying awaiting_logout] in *.
    + destruct (checked_effects config error o w) as [[Hend Hsame]|Hnext].
      * rewrite Hres in Hend, Hsame. cbn [fst snd] in *.
        rewrite !Hsame by reflexivity.
        destruct t'; try discriminate. cbn [verifying awaiting_logout]. lia.
      * rewrite Hres in Hnext. injection Hnext as -> ->.
        rewrite !occurrences_emit. cbn. lia.
    + pose proof (loggedOut_effects config error o w) as Heff.
      pose proof (loggedOut_ends config error o w) as [Hend _].
      rewrite Hres in Heff, Hend. cbn [fst snd] in *. subst t'.
      destruct Heff as [-> [-> Hnav]]. cbn [verifying awaiting_logout]. lia.
Qed.

(** In every reachable state the logouts dispatched so far are at most the
    verifications dispatched, and the navigations at most the logouts: no
    logout or redirect happens that a settled verification did not lead
    to, and none happens twice for one verification. *)
Theorem one_logout_and_navigation_per_verification :
  forall s : System,
    reachable s ->
    (occurrences is_navigate (world s) <= occurrences is_logout (world s))%nat /\
    (occurrences is_logout (world s) <= occurrences is_check (world s))%nat /\
    (occurrences is_logout (world s) + count verifying (tasks s) <=
     occurrences is_check (world s))%nat.
Proof.
  intros s Hs.
  assert (Hb : balanced s).
  { induction Hs as [here|s s' _ IH Hstep].
    - split; cbn; lia.
    - exact (step_balanced s s' IH Hstep). }
  destruct Hb as [H1 H2]. lia.
Qed.

Example one_logout_and_navigation_per_verification_witness :
  reachable verifying_system /\
  (occurrences is_logout (world verifying_system) <=
   occurrences is_check (world verifying_system))%nat.
Proof.
  split; [exact verifying_system_reachable|].
  exact (proj1 (proj2 (one_logout_and_navigation_per_verification verifying_system
                         verifying_system_reachable))).
Defined.




End CoordinatorExtras.
